(** * Basecamp data source: ingestion pipeline

    A shallow embedding of [app/data_source/sources/basecamp/basecamp.py]:
    the paginating client ([BasecampClient]), the configuration probe
    ([validate_config]), project enumeration ([_feed_new_documents]) and
    the per-project document construction ([_feed_project_issues]).

    Python values that come out of [response.json()] are modelled by the
    type [json]; exceptions by the type [exn]; the remote service by an
    oracle answering every request from the requests issued before it. *)

From Stdlib Require Import ZArith List String Ascii Bool Lia.
From Stdlib Require Import DecimalString.
Import ListNotations.

Set Warnings "-register-all".

Local Open Scope string_scope.
Local Open Scope Z_scope.

(** ** Python values and exceptions *)

(** The values produced by [response.json()].  A dict keeps insertion
    order, so an object is an association list (keys of a dict are
    unique; lookup takes the first binding).  Only integral numbers are
    modelled. *)
Inductive json : Type :=
| JNull
| JBool (b : bool)
| JNum (n : Z)
| JStr (s : string)
| JArr (items : list json)
| JObj (fields : list (string * json)).

(** The exceptions that the modelled code can raise.
    [HTTPError] is raised by [raise_for_status]; [RequestException]
    stands for the exceptions raised by [session.get] itself
    (ConnectionError, Timeout, InvalidURL, ...), none of which is an
    [HTTPError]. *)
Inductive exn : Type :=
| HTTPError (status : Z)
| RequestException
| JSONDecodeError
| KeyError (key : string)
| TypeError
| ValueError
| InvalidDataSourceConfig (cause : exn).

Inductive result (A : Type) : Type :=
| Ok (a : A)
| Raise (e : exn).
Arguments Ok {A} a.
Arguments Raise {A} e.

Definition rbind {A B} (r : result A) (k : A -> result B) : result B :=
  match r with
  | Ok a => k a
  | Raise e => Raise e
  end.

Declare Scope result_scope.
Delimit Scope result_scope with result.
Notation "x <- r ;; k" := (rbind r (fun x => k))
  (at level 61, r at next level, right associativity) : result_scope.

Fixpoint mapM {A B} (f : A -> result B) (l : list A) : result (list B) :=
  match l with
  | [] => Ok []
  | x :: l' =>
      match f x with
      | Ok y => match mapM f l' with
                | Ok ys => Ok (y :: ys)
                | Raise e => Raise e
                end
      | Raise e => Raise e
      end
  end.

Fixpoint assoc (k : string) (l : list (string * json)) : option json :=
  match l with
  | [] => None
  | (k', v) :: l' => if String.eqb k k' then Some v else assoc k l'
  end.

(** [v[k]] for a string key [k]: a dict raises KeyError on a missing
    key; every other value raises TypeError. *)
Definition getitem (v : json) (k : string) : result json :=
  match v with
  | JObj fields =>
      match assoc k fields with
      | Some x => Ok x
      | None => Raise (KeyError k)
      end
  | _ => Raise TypeError
  end.

(** Truth value testing, as used by [if x] and [not x]. *)
Definition truthy (v : json) : bool :=
  match v with
  | JNull => false
  | JBool b => b
  | JNum n => negb (n =? 0)
  | JStr s => negb (String.eqb s "")
  | JArr items => match items with [] => false | _ => true end
  | JObj fields => match fields with [] => false | _ => true end
  end.

Fixpoint chars (s : string) : list json :=
  match s with
  | EmptyString => []
  | String c s' => JStr (String c EmptyString) :: chars s'
  end.

(** [for x in v]: a list yields its items, a dict its keys, a string
    its characters; the other values are not iterable. *)
Definition py_iter (v : json) : result (list json) :=
  match v with
  | JArr items => Ok items
  | JObj fields => Ok (map (fun kv => JStr (fst kv)) fields)
  | JStr s => Ok (chars s)
  | _ => Raise TypeError
  end.

Definition str_of_Z (n : Z) : string := NilZero.string_of_int (Z.to_int n).

Fixpoint join (sep : string) (l : list string) : string :=
  match l with
  | [] => ""
  | [x] => x
  | x :: l' => x ++ sep ++ join sep l'
  end.

Fixpoint contains_char (c : ascii) (s : string) : bool :=
  match s with
  | EmptyString => false
  | String c' s' => Ascii.eqb c c' || contains_char c s'
  end.

Definition hex_digit (n : N) : ascii :=
  ascii_of_N (if (n <? 10)%N then 48 + n else 87 + n).

(** [repr] of a str: single quotes unless the text holds a single
    quote and no double quote; backslash, the quote in use and control
    characters are escaped. *)
Fixpoint escape (q : ascii) (s : string) : string :=
  match s with
  | EmptyString => ""
  | String c s' =>
      let n := N_of_ascii c in
      (if Ascii.eqb c "\" then "\\"
       else if Ascii.eqb c q then String "\" (String q "")
       else if (n =? 10)%N then "\n"
       else if (n =? 13)%N then "\r"
       else if (n =? 9)%N then "\t"
       else if ((n <? 32) || (n =? 127))%N
            then String "\" (String "x" (String (hex_digit (n / 16))
                   (String (hex_digit (n mod 16)) "")))
       else String c "") ++ escape q s'
  end.

Definition repr_str (s : string) : string :=
  let dq : ascii := ascii_of_N 34 in
  let q : ascii :=
    if contains_char "'" s && negb (contains_char dq s)
    then dq else "'"%char in
  String q (escape q s ++ String q "").

Fixpoint repr (v : json) : string :=
  match v with
  | JNull => "None"
  | JBool true => "True"
  | JBool false => "False"
  | JNum n => str_of_Z n
  | JStr s => repr_str s
  | JArr items => "[" ++ join ", " (map repr items) ++ "]"
  | JObj fields =>
      "{" ++ join ", "
               (map (fun kv => repr_str (fst kv) ++ ": " ++ repr (snd kv))
                    fields) ++ "}"
  end.

(** [str(v)], the conversion applied by an f-string replacement field. *)
Definition py_str (v : json) : string :=
  match v with
  | JStr s => s
  | _ => repr v
  end.


(** ** [datetime.strptime]

    The standard library parser, for the directives of the one format
    the source uses.  [_strptime] turns the format into a regular
    expression (matched ignoring case, from the start of the text, by
    backtracking), then requires that the match covers the whole text,
    converts the groups and builds the [datetime], whose constructor
    checks the ranges.  Every failure is a ValueError.  Texts are
    ASCII. *)

Record datetime : Type := {
  year : Z; month : Z; day : Z;
  hour : Z; minute : Z; second : Z; microsecond : Z;
  utcoffset : option Z  (* microseconds east of UTC; None when naive *)
}.

Inductive regex : Type :=
| Cls (p : ascii -> bool)
| Cat (r1 r2 : regex)
| Alt (r1 r2 : regex)
| Opt (r : regex).

(** All the ways [r] matches a prefix of [s], in the order a
    backtracking matcher tries them: (matched text, rest). *)
Fixpoint rmatch (r : regex) (s : list ascii)
  : list (list ascii * list ascii) :=
  match r with
  | Cls p =>
      match s with
      | c :: s' => if p c then [([c], s')] else []
      | [] => []
      end
  | Cat r1 r2 =>
      flat_map (fun m1 =>
                  map (fun m2 => (fst m1 ++ fst m2, snd m2))%list
                      (rmatch r2 (snd m1)))
               (rmatch r1 s)
  | Alt r1 r2 => (rmatch r1 s ++ rmatch r2 s)%list
  | Opt r1 => (rmatch r1 s ++ [([], s)])%list
  end.

Definition in_range (lo hi : ascii) (c : ascii) : bool :=
  ((N_of_ascii lo <=? N_of_ascii c) && (N_of_ascii c <=? N_of_ascii hi))%N.

Definition digit : regex := Cls (in_range "0" "9").
Definition rng (lo hi : ascii) : regex := Cls (in_range lo hi).
Definition chr (c : ascii) : regex := Cls (Ascii.eqb c).

Definition lower (c : ascii) : ascii :=
  if in_range "A" "Z" c then ascii_of_N (N_of_ascii c + 32) else c.

(** A literal character of the format, matched ignoring case. *)
Definition lit (c : ascii) : regex :=
  Cls (fun x => Ascii.eqb (lower x) (lower c)).

Inductive directive : Type :=
| Lit (c : ascii)
| D_Y | D_m | D_d | D_H | D_M | D_S | D_f | D_z.

(** One to six digits, the longest run first. *)
Definition digits_1_6 : regex :=
  Cat digit (Opt (Cat digit (Opt (Cat digit (Opt (Cat digit
    (Opt (Cat digit (Opt digit))))))))).

Definition directive_regex (d : directive) : regex :=
  match d with
  | Lit c => lit c
  | D_Y => Cat digit (Cat digit (Cat digit digit))
  | D_m => Alt (Cat (chr "1") (rng "0" "2"))
                (Alt (Cat (chr "0") (rng "1" "9")) (rng "1" "9"))
  | D_d => Alt (Cat (chr "3") (rng "0" "1"))
                (Alt (Cat (rng "1" "2") digit)
                  (Alt (Cat (chr "0") (rng "1" "9"))
                    (Alt (rng "1" "9") (Cat (chr " ") (rng "1" "9")))))
  | D_H => Alt (Cat (chr "2") (rng "0" "3"))
                (Alt (Cat (rng "0" "1") digit) digit)
  | D_M => Alt (Cat (rng "0" "5") digit) digit
  | D_S => Alt (Cat (chr "6") (rng "0" "1"))
                (Alt (Cat (rng "0" "5") digit) digit)
  | D_f => digits_1_6
  | D_z =>
      let frac := Cat (chr ".") digits_1_6 in
      Alt (Cat (Alt (chr "+") (chr "-"))
            (Cat digit (Cat digit (Cat (Opt (chr ":"))
              (Cat (rng "0" "5") (Cat digit
                (Opt (Cat (Opt (chr ":")) (Cat (rng "0" "5")
                       (Cat digit (Opt frac)))))))))))
          (chr "Z")
  end.

(** The directives of a format text; [None] for a directive outside
    the modelled ones. *)
Fixpoint parse_format (f : list ascii) : option (list directive) :=
  match f with
  | [] => Some []
  | "%"%char :: c :: f' =>
      let d :=
        if Ascii.eqb c "Y" then Some D_Y else if Ascii.eqb c "m" then Some D_m
        else if Ascii.eqb c "d" then Some D_d else if Ascii.eqb c "H" then Some D_H
        else if Ascii.eqb c "M" then Some D_M else if Ascii.eqb c "S" then Some D_S
        else if Ascii.eqb c "f" then Some D_f else if Ascii.eqb c "z" then Some D_z
        else None in
      match d, parse_format f' with
      | Some d, Some ds => Some (d :: ds)
      | _, _ => None
      end
  | c :: f' =>
      match parse_format f' with
      | Some ds => Some (Lit c :: ds)
      | None => None
      end
  end.

(** The groups of a match: the text each directive matched. *)
Definition groups : Type := list (directive * list ascii).

Fixpoint match_format (ds : list directive) (s : list ascii)
  : list (groups * list ascii) :=
  match ds with
  | [] => [([], s)]
  | d :: ds' =>
      flat_map (fun m =>
                  map (fun g => ((d, fst m) :: fst g, snd g))
                      (match_format ds' (snd m)))
               (rmatch (directive_regex d) s)
  end.

Definition directive_eqb (a b : directive) : bool :=
  match a, b with
  | Lit x, Lit y => Ascii.eqb x y
  | D_Y, D_Y | D_m, D_m | D_d, D_d | D_H, D_H
  | D_M, D_M | D_S, D_S | D_f, D_f | D_z, D_z => true
  | _, _ => false
  end.

Fixpoint group (d : directive) (g : groups) : option (list ascii) :=
  match g with
  | [] => None
  | (d', t) :: g' => if directive_eqb d d' then Some t else group d g'
  end.

(** [int(text)] for a text of digits with optional blanks in front. *)
Fixpoint int_of (acc : Z) (t : list ascii) : Z :=
  match t with
  | [] => acc
  | c :: t' =>
      if in_range "0" "9" c
      then int_of (10 * acc + Z.of_N (N_of_ascii c - 48)) t'
      else int_of acc t'
  end.

Fixpoint pad_right (n : nat) (t : list ascii) : list ascii :=
  match n, t with
  | O, _ => []
  | S n', [] => "0"%char :: pad_right n' []
  | S n', c :: t' => c :: pad_right n' t'
  end.

Definition is_leap (y : Z) : bool :=
  ((y mod 4 =? 0) && negb (y mod 100 =? 0)) || (y mod 400 =? 0).

Definition days_in_month (y m : Z) : Z :=
  if m =? 2 then (if is_leap y then 29 else 28)
  else if (m =? 4) || (m =? 6) || (m =? 9) || (m =? 11) then 30
  else 31.

(** The offset of a [%z] group, in microseconds; [None] when colons are
    used inconsistently. *)
Definition offset_of (z : list ascii) : option Z :=
  match z with
  | [c] => if Ascii.eqb c "Z" then Some 0 else None
  | sgn :: h1 :: h2 :: rest =>
      let after_colon (t : list ascii) :=
        match t with
        | ":"%char :: t' => (true, t')
        | _ => (false, t)
        end in
      let '(colon1, t1) := after_colon rest in
      match t1 with
      | m1 :: m2 :: t2 =>
          let '(colon2, t3) := after_colon t2 in
          let consistent :=
            match t2 with
            | [] => true
            | _ => Bool.eqb colon1 colon2
            end in
          let secs := firstn 2 t3 in
          let frac := skipn 3 t3 in
          let total :=
            (int_of 0 [h1; h2] * 3600 + int_of 0 [m1; m2] * 60
             + int_of 0 secs) * 1000000 + int_of 0 (pad_right 6 frac) in
          if consistent
          then Some (if Ascii.eqb sgn "-" then - total else total)
          else None
      | _ => None
      end
  | _ => None
  end.

Definition field (d : directive) (default : Z) (g : groups) : Z :=
  match group d g with
  | Some t => int_of 0 t
  | None => default
  end.

(** The [datetime] of the groups of a match; the constructors of
    [date], [datetime] and [timezone] reject values out of range. *)
Definition datetime_of_groups (g : groups) : result datetime :=
  let y := field D_Y 1900 g in
  let m := field D_m 1 g in
  let d := field D_d 1 g in
  let sec := field D_S 0 g in
  let us := match group D_f g with
            | Some t => int_of 0 (pad_right 6 t)
            | None => 0
            end in
  let tz := match group D_z g with
            | Some z => match offset_of z with
                        | Some o => Ok (Some o)
                        | None => Raise ValueError
                        end
            | None => Ok None
            end in
  match tz with
  | Raise e => Raise e
  | Ok off =>
      let off_ok := match off with
                    | Some o => Z.abs o <? 86400 * 1000000
                    | None => true
                    end in
      if (1 <=? y) && (y <=? 9999) && (1 <=? m) && (m <=? 12)
         && (1 <=? d) && (d <=? days_in_month y m)
         && (sec <=? 59) && off_ok
      then Ok {| year := y; month := m; day := d;
                 hour := field D_H 0 g; minute := field D_M 0 g;
                 second := sec; microsecond := us; utcoffset := off |}
      else Raise ValueError
  end.

(** [datetime.strptime(date_string, format)]. *)
Definition strptime (date_string : json) (format : string) : result datetime :=
  match date_string with
  | JStr s =>
      match parse_format (list_ascii_of_string format) with
      | Some ds =>
          match match_format ds (list_ascii_of_string s) with
          | (g, []) :: _ => datetime_of_groups g
          | _ => Raise ValueError
          end
      | None => Raise ValueError
      end
  | _ => Raise TypeError
  end.

(** The format both calls of the source pass to [strptime]. *)
Definition TIMESTAMP_FORMAT : string := "%Y-%m-%dT%H:%M:%S.%f%z".

(** ** Documents, the remote service and the state of a run *)

(** Modelled from the spec: [DocumentType]
    (data_source/api/basic_document.py is not part of the sources),
    "type in {DOCUMENT, COMMENT}". *)
Inductive DocumentType : Type := DOCUMENT | COMMENT.

(** Modelled from the spec: [BasicDocument] (same file), the
    NormalizedDocument of the specification, with the fields the source
    passes to its constructor.  [content] is [None] for Python's None;
    [children] is "always empty on COMMENT-type", the constructor call
    of a comment giving none. *)
Inductive BasicDocument : Type := mkBasicDocument {
  id : json;
  data_source_id : Z;
  type : DocumentType;
  title : json;
  content : option string;
  author : json;
  author_image_url : json;
  location : json;
  url : json;
  timestamp : datetime;
  children : list BasicDocument
}.

(** One [session.get]: the URL, the [page] parameter when given, and
    what the session adds to every request. *)
Record request : Type := {
  req_url : json;
  req_page : option Z;
  req_auth : json * json;
  req_user_agent : string
}.

(** What comes back: an HTTP response (status, and the body when it is
    JSON), or nothing at all (connection failure, timeout, bad URL). *)
Inductive reply : Type :=
| Reply (status_code : Z) (body : option json)
| NoReply.

Record Response : Type := { status_code : Z; body : option json }.

(** [response.raise_for_status()]. *)
Definition raise_for_status (r : Response) : result unit :=
  if (400 <=? status_code r) && (status_code r <? 600)
  then Raise (HTTPError (status_code r))
  else Ok tt.

(** [response.json()]. *)
Definition response_json (r : Response) : result json :=
  match body r with
  | Some v => Ok v
  | None => Raise JSONDecodeError
  end.

(** A unit of work handed to [add_task_to_queue]. *)
Inductive task : Type :=
| feed_project_issues_task (project : json).

(** The observable state of a run: the requests issued so far (oldest
    first), the documents put on the index queue, the scheduled tasks. *)
Record world : Type := {
  requests_log : list request;
  index_queue : list BasicDocument;
  task_queue : list task
}.

Definition log_request (req : request) (w : world) : world :=
  {| requests_log := requests_log w ++ [req];
     index_queue := index_queue w;
     task_queue := task_queue w |}.

Definition log_requests (reqs : list request) (w : world) : world :=
  {| requests_log := requests_log w ++ reqs;
     index_queue := index_queue w;
     task_queue := task_queue w |}.

Definition enqueue_all (docs : list BasicDocument) (w : world) : world :=
  {| requests_log := requests_log w;
     index_queue := index_queue w ++ docs;
     task_queue := task_queue w |}.

Definition schedule_all (ts : list task) (w : world) : world :=
  {| requests_log := requests_log w;
     index_queue := index_queue w;
     task_queue := task_queue w ++ ts |}.

Definition M (A : Type) : Type := world -> result A * world.

Definition ret {A} (a : A) : M A := fun w => (Ok a, w).

Definition lift {A} (r : result A) : M A := fun w => (r, w).

Definition bind {A B} (m : M A) (k : A -> M B) : M B :=
  fun w =>
    match m w with
    | (Ok a, w') => k a w'
    | (Raise e, w') => (Raise e, w')
    end.

Declare Scope M_scope.
Delimit Scope M_scope with M.
Notation "x <- m ;; k" := (bind m (fun x => k))
  (at level 61, m at next level, right associativity) : M_scope.

(** Modelled from the spec: [IndexQueue.put_single] (queues/index_queue.py
    is not part of the sources); the sink accepts one document per call. *)
Definition put_single (doc : BasicDocument) : M unit :=
  fun w => (Ok tt, enqueue_all [doc] w).

(** Modelled from the spec: [BaseDataSource.add_task_to_queue]
    (data_source/api/base_data_source.py is not part of the sources);
    a unit of work is scheduled, not run. *)
Definition add_task_to_queue (t : task) : M unit :=
  fun w => (Ok tt, schedule_all [t] w).

Record BasecampClient : Type := {
  base_url : string;
  session_auth : json * json;
  session_user_agent : string
}.

Definition BasecampClient_init (url username password : json)
  : BasecampClient :=
  {| base_url := py_str url ++ "/api/v1";
     session_auth := (username, password);
     session_user_agent := "GerevAI (" ++ py_str username ++ ")" |}.

(** The request a session of [self] sends for [u] and [page]. *)
Definition session_request (self : BasecampClient) (u : json)
  (page : option Z) : request :=
  {| req_url := u; req_page := page;
     req_auth := session_auth self;
     req_user_agent := session_user_agent self |}.

Definition projects_url (self : BasecampClient) : string :=
  base_url self ++ "/projects.json".

Definition todos_url (self : BasecampClient) (pid : json) : string :=
  base_url self ++ "/projects/" ++ py_str pid ++ "/todos.json".

Record BasecampDataSource : Type := {
  _raw_config : json;
  _data_source_id : Z;
  _client : BasecampClient
}.

Definition BasecampDataSource_init (raw_config : json) (data_source_id : Z)
  : result BasecampDataSource :=
  (url <- getitem raw_config "url";;
   username <- getitem raw_config "username";;
   password <- getitem raw_config "password";;
   Ok {| _raw_config := raw_config;
         _data_source_id := data_source_id;
         _client := BasecampClient_init url username password |})%result.

(** ** The pattern of the specification, and data for examples *)












(** Modelled from the spec: [html_to_text] (parsers/html.py is not part
    of the sources), "pure function, input HTML string -> output text
    string".  This stand-in, used in examples only, drops the tags. *)
Fixpoint strip_tags (in_tag : bool) (s : string) : string :=
  match s with
  | EmptyString => EmptyString
  | String c s' =>
      if Ascii.eqb c "<" then strip_tags true s'
      else if Ascii.eqb c ">" then strip_tags false s'
      else if in_tag then strip_tags in_tag s'
      else String c (strip_tags in_tag s')
  end.

Definition example_html_to_text (s : string) : string := strip_tags false s.

(** A remote that answers from a table of routes (URL, page), the
    first matching route winning, and with 404 otherwise. *)
Definition route : Type := (string * option Z * reply)%type.

Definition page_eqb (a b : option Z) : bool :=
  match a, b with
  | Some x, Some y => x =? y
  | None, None => true
  | _, _ => false
  end.

Fixpoint table_lookup (u : string) (page : option Z) (t : list route)
  : reply :=
  match t with
  | [] => Reply 404 None
  | (u', page', r) :: t' =>
      if String.eqb u u' && page_eqb page page' then r
      else table_lookup u page t'
  end.

Definition table_remote (t : list route) : list request -> request -> reply :=
  fun _ req =>
    match req_url req with
    | JStr u => table_lookup u (req_page req) t
    | _ => NoReply
    end.

Definition example_config : json :=
  JObj [("url", JStr "https://bc"); ("username", JStr "ann");
        ("password", JStr "pw")].

Definition example_client : BasecampClient :=
  BasecampClient_init (JStr "https://bc") (JStr "ann") (JStr "pw").

Definition example_source : BasecampDataSource :=
  {| _raw_config := example_config;
     _data_source_id := 7;
     _client := example_client |}.

Definition example_project : json :=
  JObj [("id", JNum 1); ("name", JStr "Acme")].

Definition example_todos_url : string :=
  "https://bc/api/v1/projects/1/todos.json".

Definition summary_of (u : string) : json := JObj [("url", JStr u)].

(** The routes of a source with the given pages of (locator, detail
    record), numbered from [k], followed by an empty page. *)
Fixpoint page_routes (k : Z) (pages : list (list (string * json)))
  : list route :=
  match pages with
  | [] => [(example_todos_url, Some k, Reply 200 (Some (JArr [])))]
  | page :: rest =>
      ((example_todos_url, Some k,
        Reply 200 (Some (JArr (map (fun e => summary_of (fst e)) page))))
         :: map (fun e => (fst e, None, Reply 200 (Some (snd e)))) page
         ++ page_routes (k + 1) rest)%list
  end.

(** The same pages in the form the statements use: (summary, detail
    record). *)
Definition entries (page : list (string * json)) : list (json * json) :=
  map (fun e => (summary_of (fst e), snd e)) page.

Definition creator_of (name : string) (avatar : json) : json :=
  JObj [("name", JStr name); ("avatar_url", avatar)].

Definition comment_of (cid : Z) (creator : json) (text updated_at : string)
  : json :=
  JObj [("id", JNum cid); ("creator", creator); ("content", JStr text);
        ("updated_at", JStr updated_at)].

Definition todo_of (tid : Z) (creator : json) (text app_url updated_at : string)
  (comments : list json) : json :=
  JObj [("id", JNum tid); ("creator", creator); ("content", JStr text);
        ("app_url", JStr app_url); ("updated_at", JStr updated_at);
        ("comments", JArr comments)].

(** The task item of the end-to-end scenario, for given creator
    records. *)
Definition scenario_todo (creator comment_creator : json) : json :=
  todo_of 10 creator "<p>Hi</p>" "https://x/10"
    "2023-01-02T03:04:05.000000+00:00"
    [comment_of 99 comment_creator "<b>ok</b>"
       "2023-01-02T03:05:00.000000+00:00"].

(** The scenario as the specification writes it: the creator records
    hold a name only. *)
Definition scenario_todo_literal : json :=
  scenario_todo (JObj [("name", JStr "Bo")]) (JObj [("name", JStr "Al")]).

Definition scenario_remote (todo : json) : list request -> request -> reply :=
  table_remote
    (page_routes 1 [[("https://bc/api/v1/projects/1/todos/10.json", todo)]]).

(** Three task items on one page; the second has a timestamp that
    does not parse. *)
Definition todo_a : json :=
  todo_of 10 (creator_of "Bo" JNull) "<p>Hi</p>" "https://x/10"
    "2023-01-02T03:04:05.000000+00:00" [].

Definition todo_b : json :=
  todo_of 11 (creator_of "Bo" JNull) "<p>Ho</p>" "https://x/11"
    "yesterday" [].

Definition todo_c : json :=
  todo_of 12 (creator_of "Bo" JNull) "<p>Hum</p>" "https://x/12"
    "2023-01-02T03:04:07.000000+00:00" [].

Definition three_todos : list (string * json) :=
  [("https://bc/t/10", todo_a); ("https://bc/t/11", todo_b);
   ("https://bc/t/12", todo_c)].

Definition three_todos_remote : list request -> request -> reply :=
  table_remote (page_routes 1 [three_todos]).

(** A task item with empty content, and one whose comments have an
    empty and a null content. *)
Definition todo_blank : json :=
  todo_of 13 (creator_of "Bo" JNull) "" "https://x/13"
    "2023-01-02T03:04:05.000000+00:00" [].

Definition todo_quiet_comments : json :=
  todo_of 14 (creator_of "Bo" JNull) "<p>Hi</p>" "https://x/14"
    "2023-01-02T03:04:05.000000+00:00"
    [comment_of 1 (creator_of "Al" JNull) "<b>ok</b>"
       "2023-01-02T03:05:00.000000+00:00";
     comment_of 2 (creator_of "Al" JNull) ""
       "2023-01-02T03:06:00.000000+00:00";
     JObj [("id", JNum 3); ("creator", creator_of "Al" JNull);
           ("content", JNull);
           ("updated_at", JStr "2023-01-02T03:07:00.000000+00:00")]].


(** Two pages, [[a, c], [blank]], as (locator, detail record). *)
Definition two_pages : list (list (string * json)) :=
  [[("https://bc/t/10", todo_a); ("https://bc/t/12", todo_c)];
   [("https://bc/t/13", todo_blank)]].

Definition two_pages_remote : list request -> request -> reply :=
  table_remote (page_routes 1 two_pages).

(** After a first page [[a]], the second page lists c, b and blank, and
    the detail request of b is answered with status 500. *)
Definition failing_detail_remote : list request -> request -> reply :=
  table_remote
    (("https://bc/t/11", None, Reply 500 None)
       :: page_routes 1
            [[("https://bc/t/10", todo_a)];
             [("https://bc/t/12", todo_c); ("https://bc/t/11", todo_b);
              ("https://bc/t/13", todo_blank)]]).

(** A remote that answers every request with the given status and no
    body, and one that never answers. *)
Definition status_remote (s : Z) : list request -> request -> reply :=
  fun _ _ => Reply s None.

Definition silent_remote : list request -> request -> reply :=
  fun _ _ => NoReply.

Definition empty_world : world :=
  {| requests_log := []; index_queue := []; task_queue := [] |}.

(** ** The configuration form *)

(** Modelled from the spec: [HTMLInputType] and [ConfigField]
    (data_source/api/base_data_source.py is not part of the sources),
    with the member and the fields the source uses; [input_type] is
    [None] where the constructor call gives none. *)
Inductive HTMLInputType : Type := PASSWORD.

Record ConfigField : Type := {
  label : string;
  name : string;
  input_type : option HTMLInputType
}.

Definition get_config_fields : list ConfigField :=
  [{| label := "Basecamp URL"; name := "url"; input_type := None |};
   {| label := "Username"; name := "username"; input_type := None |};
   {| label := "Password"; name := "password";
      input_type := Some PASSWORD |}].

(** ** Further data for examples *)

(** A remote that answers every request with status 200 and the JSON
    value [v]. *)
Definition json_remote (v : json) : list request -> request -> reply :=
  fun _ _ => Reply 200 (Some v).

(** A remote without a last page: every page lists the same summary. *)
Definition endless_remote : list request -> request -> reply :=
  fun _ req =>
    match req_page req with
    | Some _ => Reply 200 (Some (JArr [summary_of "https://bc/t/10"]))
    | None => Reply 200 (Some todo_a)
    end.

(** A remote whose first page is the JSON value [v]. *)
Definition first_page_remote (v : json) : list request -> request -> reply :=
  table_remote [(example_todos_url, Some 1, Reply 200 (Some v))].

(** A page whose second summary has no locator. *)
Definition missing_url_remote : list request -> request -> reply :=
  table_remote
    [(example_todos_url, Some 1,
      Reply 200 (Some (JArr [summary_of "https://bc/t/10";
                             JObj [("id", JNum 11)];
                             summary_of "https://bc/t/12"])));
     ("https://bc/t/10", None, Reply 200 (Some todo_a));
     ("https://bc/t/12", None, Reply 200 (Some todo_c))].

(** A task item whose second comment has no [updated_at]. *)
Definition todo_broken_comment : json :=
  todo_of 16 (creator_of "Bo" JNull) "<p>Hi</p>" "https://x/16"
    "2023-01-02T03:04:05.000000+00:00"
    [comment_of 1 (creator_of "Al" JNull) "<b>ok</b>"
       "2023-01-02T03:05:00.000000+00:00";
     JObj [("id", JNum 2); ("creator", creator_of "Al" JNull);
           ("content", JStr "late")];
     comment_of 3 (creator_of "Al" JNull) "<b>ok</b>"
       "2023-01-02T03:07:00.000000+00:00"].


(** Two task items with comments on one page: the task item of the
    scenario and the one with an empty and a null comment. *)
Definition tree_todos : list (string * json) :=
  [("https://bc/t/10",
    scenario_todo (creator_of "Bo" JNull) (creator_of "Al" JNull));
   ("https://bc/t/14", todo_quiet_comments)].

Definition tree_todos_remote : list request -> request -> reply :=
  table_remote (page_routes 1 [tree_todos]).

(** ** The pipeline *)

Section Pipeline.

(** [parsers.html.html_to_text], a function from str to str whose
    source is not part of this file's sources. *)
Variable html_to_text : string -> string.

(** The remote service: its answer to a request, given the requests
    issued before it. *)
Variable remote : list request -> request -> reply.

(** A call of [html_to_text] on a Python value; the converter is
    declared on str, and a value of another type is a TypeError. *)
Definition call_html_to_text (v : json) : result string :=
  match v with
  | JStr s => Ok (html_to_text s)
  | _ => Raise TypeError
  end.

(** [self.session.get(url, params={"page": page})]. *)
Definition session_get (self : BasecampClient) (u : json) (page : option Z)
  : M Response :=
  fun w =>
    let req := session_request self u page in
    match remote (requests_log w) req with
    | Reply s b => (Ok {| status_code := s; body := b |}, log_request req w)
    | NoReply => (Raise RequestException, log_request req w)
    end.

Definition get_projects (self : BasecampClient) : M json :=
  (response <- session_get self (JStr (projects_url self)) None;;
   _ <- lift (raise_for_status response);;
   lift (response_json response))%M.

(** The inner loop of [get_todos]: one detail request per summary. *)
Fixpoint get_todos_details (self : BasecampClient) (basic_todos : list json)
  (todos : list json) : M (list json) :=
  match basic_todos with
  | [] => ret todos
  | basic_todo :: rest =>
      (u <- lift (getitem basic_todo "url");;
       response <- session_get self u None;;
       _ <- lift (raise_for_status response);;
       todo <- lift (response_json response);;
       get_todos_details self rest (todos ++ [todo]))%M
  end.

(** One round of the [while True] loop, up to the test of
    [basic_todos]. *)
Definition get_todos_page (self : BasecampClient) (u : string) (page : Z)
  (todos : list json) : M (json * list json) :=
  (response <- session_get self (JStr u) (Some page);;
   _ <- lift (raise_for_status response);;
   basic_todos <- lift (response_json response);;
   items <- lift (py_iter basic_todos);;
   todos' <- get_todos_details self items todos;;
   ret (basic_todos, todos'))%M.

(** The [while True] loop; [None] when [fuel] rounds did not reach the
    [break]. *)
Fixpoint get_todos_loop (fuel : nat) (self : BasecampClient) (u : string)
  (page : Z) (todos : list json) (w : world)
  : option (result (list json) * world) :=
  match fuel with
  | O => None
  | S fuel' =>
      match get_todos_page self u page todos w with
      | (Raise e, w') => Some (Raise e, w')
      | (Ok (basic_todos, todos'), w') =>
          if negb (truthy basic_todos)
          then Some (Ok todos', w')
          else get_todos_loop fuel' self u (page + 1) todos' w'
      end
  end.

Definition get_todos (fuel : nat) (self : BasecampClient) (project : json)
  (w : world) : option (result (list json) * world) :=
  match getitem project "id" with
  | Raise e => Some (Raise e, w)
  | Ok pid =>
      get_todos_loop fuel self (todos_url self pid) 1 [] w
  end.

Definition validate_config (config : json) : M unit :=
  fun w =>
    match (u <- lift (getitem config "url");;
           username <- lift (getitem config "username");;
           password <- lift (getitem config "password");;
           _ <- get_projects (BasecampClient_init u username password);;
           ret tt)%M w with
    | (Raise (HTTPError s), w') =>
        (Raise (InvalidDataSourceConfig (HTTPError s)), w')
    | r => r
    end.

Fixpoint schedule_projects (projects : list json) : M unit :=
  match projects with
  | [] => ret tt
  | project :: rest =>
      (_ <- add_task_to_queue (feed_project_issues_task project);;
       schedule_projects rest)%M
  end.

Definition _feed_new_documents (self : BasecampDataSource) : M unit :=
  (projects <- get_projects (_client self);;
   items <- lift (py_iter projects);;
   schedule_projects items)%M.

(** The [BasicDocument] of one comment (body of the inner loop of
    [_feed_project_issues]); the lookups are in the order the
    constructor's arguments are evaluated. *)
Definition comment_document (self : BasecampDataSource)
  (project todo comment : json) : result BasicDocument :=
  (cid <- getitem comment "id";;
   creator <- getitem comment "creator";;
   ttl <- getitem creator "name";;
   cond <- getitem comment "content";;
   cnt <- (if truthy cond
           then raw <- getitem comment "content";;
                text <- call_html_to_text raw;;
                Ok (Some text)
           else Ok None);;
   creator' <- getitem comment "creator";;
   auth <- getitem creator' "name";;
   creator'' <- getitem comment "creator";;
   avatar <- getitem creator'' "avatar_url";;
   loc <- getitem project "name";;
   app_url <- getitem todo "app_url";;
   cid' <- getitem comment "id";;
   updated_at <- getitem comment "updated_at";;
   ts <- strptime updated_at TIMESTAMP_FORMAT;;
   Ok {| id := cid;
         data_source_id := _data_source_id self;
         type := COMMENT;
         title := ttl;
         content := cnt;
         author := auth;
         author_image_url := avatar;
         location := loc;
         url := JStr (py_str app_url ++ "#comment_" ++ py_str cid');
         timestamp := ts;
         children := [] |})%result.

(** The [BasicDocument] of one task item with its comments (body of
    the outer loop of [_feed_project_issues], up to [put_single]). *)
Definition todo_document (self : BasecampDataSource) (project todo : json)
  : result BasicDocument :=
  (comments <- getitem todo "comments";;
   items <- py_iter comments;;
   docs <- mapM (comment_document self project todo) items;;
   tid <- getitem todo "id";;
   creator <- getitem todo "creator";;
   ttl <- getitem creator "name";;
   raw <- getitem todo "content";;
   text <- call_html_to_text raw;;
   creator' <- getitem todo "creator";;
   auth <- getitem creator' "name";;
   creator'' <- getitem todo "creator";;
   avatar <- getitem creator'' "avatar_url";;
   loc <- getitem project "name";;
   app_url <- getitem todo "app_url";;
   updated_at <- getitem todo "updated_at";;
   ts <- strptime updated_at TIMESTAMP_FORMAT;;
   Ok {| id := tid;
         data_source_id := _data_source_id self;
         type := DOCUMENT;
         title := ttl;
         content := Some text;
         author := auth;
         author_image_url := avatar;
         location := loc;
         url := app_url;
         timestamp := ts;
         children := docs |})%result.

(** The outer loop of [_feed_project_issues]. *)
Fixpoint feed_todos (self : BasecampDataSource) (project : json)
  (todos : list json) : M unit :=
  match todos with
  | [] => ret tt
  | todo :: rest =>
      (doc <- lift (todo_document self project todo);;
       _ <- put_single doc;;
       feed_todos self project rest)%M
  end.

Definition _feed_project_issues (fuel : nat) (self : BasecampDataSource)
  (project : json) (w : world) : option (result unit * world) :=
  match (name <- getitem project "name";;
         pid <- getitem project "id";; Ok tt)%result with
  | Raise e => Some (Raise e, w)
  | Ok _ =>
      match get_todos fuel (_client self) project w with
      | None => None
      | Some (Raise e, w') => Some (Raise e, w')
      | Some (Ok todos, w') => Some (feed_todos self project todos w')
      end
  end.

(** *** Describing a remote service *)

Definition ok_status (s : Z) : bool := negb ((400 <=? s) && (s <? 600)).

(** [req] is answered, whatever came before, by a status that
    [raise_for_status] accepts and the JSON value [v]. *)
Definition serves (req : request) (v : json) : Prop :=
  forall h, exists s, remote h req = Reply s (Some v) /\ ok_status s = true.

(** [req] is answered, whatever came before, by the error status [s]. *)
Definition fails_with (req : request) (s : Z) : Prop :=
  ok_status s = false /\ forall h, exists b, remote h req = Reply s b.

Definition summary_url (summary : json) : json :=
  match getitem summary "url" with
  | Ok l => l
  | Raise _ => JNull
  end.

(** A page is a sequence of (summary, detail record) pairs: every
    summary has a locator, under which its detail record is served. *)
Fixpoint details_served (self : BasecampClient) (page : list (json * json))
  : Prop :=
  match page with
  | [] => True
  | e :: rest =>
      (exists l, getitem (fst e) "url" = Ok l)
      /\ serves (session_request self (summary_url (fst e)) None) (snd e)
      /\ details_served self rest
  end.

(** Non-empty pages served under [u] from page number [k] on. *)
Fixpoint pages_served (self : BasecampClient) (u : string) (k : Z)
  (pages : list (list (json * json))) : Prop :=
  match pages with
  | [] => True
  | page :: rest =>
      page <> []
      /\ serves (session_request self (JStr u) (Some k)) (JArr (map fst page))
      /\ details_served self page
      /\ pages_served self u (k + 1) rest
  end.

Definition detail_requests (self : BasecampClient) (page : list (json * json))
  : list request :=
  map (fun e => session_request self (summary_url (fst e)) None) page.

(** The requests of a walk over [pages]: each page request followed by
    the detail requests of its summaries. *)
Fixpoint pages_trace (self : BasecampClient) (u : string) (k : Z)
  (pages : list (list (json * json))) : list request :=
  match pages with
  | [] => []
  | page :: rest =>
      session_request self (JStr u) (Some k)
        :: (detail_requests self page ++ pages_trace self u (k + 1) rest)%list
  end.

Definition is_page_request (r : request) : bool :=
  match req_page r with
  | Some _ => true
  | None => false
  end.

(** The comments of a task item, as the inner loop walks them. *)
Definition comments_of (todo : json) : result (list json) :=
  (comments <- getitem todo "comments";; py_iter comments)%result.

(** The one request [get_projects] sends. *)
Definition projects_request (self : BasecampClient) : request :=
  session_request self (JStr (projects_url self)) None.

(** What [get_projects] raises when the answer to its request is an
    error status or no answer at all. *)
Definition enumeration_failure (r : reply) (e : exn) : Prop :=
  match r with
  | Reply s _ => ok_status s = false /\ e = HTTPError s
  | NoReply => e = RequestException
  end.

(** The replies given to the requests [reqs], issued in this order
    after the requests [h]. *)
Fixpoint replies (h reqs : list request) : list reply :=
  match reqs with
  | [] => []
  | req :: rest => remote h req :: replies (h ++ [req]) rest
  end.

(** A reply that lets the code go on: an accepted status and a JSON
    body. *)
Definition ok_reply (r : reply) : bool :=
  match r with
  | Reply s (Some _) => ok_status s
  | _ => false
  end.

(** What is raised on a reply that is not [ok_reply]. *)
Definition error_of (r : reply) : exn :=
  match r with
  | Reply s _ => if ok_status s then JSONDecodeError else HTTPError s
  | NoReply => RequestException
  end.


(** A run that issued [reqs] after [h] and ended in [r]: every reply
    but the last was [ok_reply]; a last reply that was not ended the
    run with its error. *)
Definition clean_run {A} (h reqs : list request) (r : result A) : Prop :=
  exists front tail,
    replies h reqs = (front ++ tail)%list
    /\ forallb ok_reply front = true
    /\ match tail with
       | [] => True
       | [rep] => ok_reply rep = false /\ r = Raise (error_of rep)
       | _ => False
       end.

Definition traced {A} (m : M A) : Prop :=
  forall w,
    exists reqs,
      snd (m w) = log_requests reqs w
      /\ clean_run (requests_log w) reqs (fst (m w)).

(** A request as the detail loop sends it: through the session of
    [self], without a page parameter. *)
Definition detail_shaped (self : BasecampClient) (q : request) : Prop :=
  exists l, q = session_request self l None.

(** A request through the session of [self]. *)
Definition session_shaped (self : BasecampClient) (q : request) : Prop :=
  req_auth q = session_auth self
  /\ req_user_agent q = session_user_agent self.

(** The COMMENT document of a raw comment, stated on the raw records
    after section 4.2 of the specification (title and author are the
    creator's name, the url is the task item's app_url with the
    fragment "#comment_<id>", the content is the converted HTML or
    absent when the raw content is falsy).  No children are given to a
    comment: [children] is the default of the constructor. *)
Definition spec_comment_document (self : BasecampDataSource)
  (project todo comment : json) (child : BasicDocument) : Prop :=
  type child = COMMENT
  /\ children child = []
  /\ data_source_id child = _data_source_id self
  /\ getitem comment "id" = Ok (id child)
  /\ (exists creator,
         getitem comment "creator" = Ok creator
         /\ getitem creator "name" = Ok (title child)
         /\ author child = title child
         /\ getitem creator "avatar_url" = Ok (author_image_url child))
  /\ (exists raw,
         getitem comment "content" = Ok raw
         /\ if truthy raw
            then exists s, raw = JStr s
                           /\ content child = Some (html_to_text s)
            else content child = None)
  /\ getitem project "name" = Ok (location child)
  /\ (exists app_url,
         getitem todo "app_url" = Ok app_url
         /\ url child
            = JStr (py_str app_url ++ "#comment_" ++ py_str (id child)))
  /\ (exists v,
         getitem comment "updated_at" = Ok v
         /\ strptime v TIMESTAMP_FORMAT = Ok (timestamp child)).

(** The DOCUMENT tree of a raw task item, stated on the raw records
    after section 4.2 of the specification: the parent's fields, and
    as children the COMMENT documents of the raw comments, one per
    comment, in source order. *)
Definition spec_task_document (self : BasecampDataSource)
  (project todo : json) (doc : BasicDocument) : Prop :=
  type doc = DOCUMENT
  /\ data_source_id doc = _data_source_id self
  /\ getitem todo "id" = Ok (id doc)
  /\ (exists creator,
         getitem todo "creator" = Ok creator
         /\ getitem creator "name" = Ok (title doc)
         /\ author doc = title doc
         /\ getitem creator "avatar_url" = Ok (author_image_url doc))
  /\ (exists raw,
         getitem todo "content" = Ok (JStr raw)
         /\ content doc = Some (html_to_text raw))
  /\ getitem project "name" = Ok (location doc)
  /\ getitem todo "app_url" = Ok (url doc)
  /\ (exists v,
         getitem todo "updated_at" = Ok v
         /\ strptime v TIMESTAMP_FORMAT = Ok (timestamp doc))
  /\ exists comments,
       comments_of todo = Ok comments
       /\ Forall2 (spec_comment_document self project todo)
                  comments (children doc).

(** ** Properties *)

Lemma log_requests_nil (w : world) : log_requests [] w = w.
Proof.
  destruct w as [l q t]. unfold log_requests. cbn. now rewrite app_nil_r.
Qed.

Lemma log_request_one (req : request) (w : world) :
  log_request req w = log_requests [req] w.
Proof. reflexivity. Qed.

Lemma log_requests_app (a b : list request) (w : world) :
  log_requests b (log_requests a w) = log_requests (a ++ b) w.
Proof.
  unfold log_requests. cbn. now rewrite app_assoc.
Qed.

Lemma session_get_serves (self : BasecampClient) (u : json) (page : option Z)
  (v : json) (w : world) :
  serves (session_request self u page) v ->
  exists s, ok_status s = true
    /\ session_get self u page w
       = (Ok {| status_code := s; body := Some v |},
          log_request (session_request self u page) w).
Proof.
  intros Hs. destruct (Hs (requests_log w)) as [s [Hr Hok]].
  exists s. split; [exact Hok|]. unfold session_get. now rewrite Hr.
Qed.

Lemma raise_for_status_ok (s : Z) (b : option json) :
  ok_status s = true ->
  raise_for_status {| status_code := s; body := b |} = Ok tt.
Proof.
  unfold ok_status, raise_for_status. cbn.
  destruct ((400 <=? s) && (s <? 600)); [discriminate | reflexivity].
Qed.



Lemma get_todos_details_served (self : BasecampClient)
  (page : list (json * json)) :
  details_served self page ->
  forall todos w,
    get_todos_details self (map fst page) todos w
    = (Ok (todos ++ map snd page)%list,
       log_requests (detail_requests self page) w).
Proof.
  induction page as [|e rest IH]; intros Hd todos w.
  - cbn. now rewrite app_nil_r, log_requests_nil.
  - destruct Hd as [[l Hl] [Hs Hrest]].
    assert (Hu : summary_url (fst e) = l) by (unfold summary_url; now rewrite Hl).
    rewrite Hu in Hs.
    destruct (session_get_serves self l None (snd e) w Hs) as [s [Hok Hget]].
    cbn [map get_todos_details]. unfold bind at 1, lift at 1. rewrite Hl.
    unfold bind at 1. rewrite Hget.
    unfold bind at 1, lift at 1. rewrite (raise_for_status_ok _ _ Hok).
    unfold bind at 1, lift at 1. cbn [response_json body].
    rewrite (IH Hrest). cbn [detail_requests map]. rewrite Hu.
    rewrite log_request_one, log_requests_app. cbn [app].
    now rewrite <- app_assoc.
Qed.

Lemma get_todos_page_served (self : BasecampClient) (u : string) (k : Z)
  (page : list (json * json)) (todos : list json) (w : world) :
  serves (session_request self (JStr u) (Some k)) (JArr (map fst page)) ->
  details_served self page ->
  get_todos_page self u k todos w
  = (Ok (JArr (map fst page), (todos ++ map snd page)%list),
     log_requests (session_request self (JStr u) (Some k)
                     :: detail_requests self page) w).
Proof.
  intros Hs Hd.
  destruct (session_get_serves self (JStr u) (Some k) _ w Hs) as [s [Hok Hget]].
  unfold get_todos_page. unfold bind at 1. rewrite Hget.
  unfold bind at 1, lift at 1. rewrite (raise_for_status_ok _ _ Hok).
  unfold bind at 1, lift at 1. cbn [response_json body].
  unfold bind at 1, lift at 1. cbn [py_iter].
  unfold bind at 1. rewrite (get_todos_details_served self page Hd).
  unfold ret. now rewrite log_request_one, log_requests_app.
Qed.

Lemma truthy_page (page : list (json * json)) :
  page <> [] -> truthy (JArr (map fst page)) = true.
Proof. destruct page; [congruence | reflexivity]. Qed.

Lemma get_todos_loop_served (self : BasecampClient) (u : string)
  (pages : list (list (json * json))) :
  forall (k : Z) (todos : list json) (w : world) (fuel : nat),
    pages_served self u k pages ->
    serves (session_request self (JStr u) (Some (k + Z.of_nat (List.length pages))))
           (JArr []) ->
    (List.length pages < fuel)%nat ->
    get_todos_loop fuel self u k todos w
    = Some (Ok (todos ++ map snd (List.concat pages))%list,
            log_requests
              (pages_trace self u k pages
               ++ [session_request self (JStr u)
                     (Some (k + Z.of_nat (List.length pages)))]) w).
Proof.
  induction pages as [|page rest IH]; intros k todos w fuel Hp Hend Hfuel.
  - destruct fuel as [|fuel]; [cbn in Hfuel; lia|].
    cbn [List.length Z.of_nat] in *. replace (k + 0) with k in * by lia.
    cbn [get_todos_loop].
    rewrite (get_todos_page_served self u k [] todos w Hend I).
    cbn. now rewrite app_nil_r.
  - destruct fuel as [|fuel]; [cbn in Hfuel; lia|].
    destruct Hp as [Hne [Hs [Hd Hrest]]].
    cbn [get_todos_loop].
    rewrite (get_todos_page_served self u k page todos w Hs Hd).
    rewrite (truthy_page page Hne). cbn [negb].
    assert (Hk : k + Z.of_nat (List.length (page :: rest))
                 = k + 1 + Z.of_nat (List.length rest))
      by (cbn [List.length]; lia).
    rewrite Hk in *.
    rewrite (IH (k + 1) _ _ fuel Hrest Hend) by (cbn in Hfuel; lia).
    rewrite log_requests_app. cbn [List.concat pages_trace].
    rewrite map_app, <- !app_assoc. cbn [app].
    now rewrite <- !app_assoc.
Qed.

Lemma filter_detail_requests (self : BasecampClient)
  (page : list (json * json)) :
  filter is_page_request (detail_requests self page) = [].
Proof. induction page as [|e rest IH]; [reflexivity | exact IH]. Qed.

Lemma page_requests_of_trace (self : BasecampClient) (u : string)
  (pages : list (list (json * json))) :
  forall k : Z,
    map req_page
        (filter is_page_request
           (pages_trace self u k pages
            ++ [session_request self (JStr u)
                  (Some (k + Z.of_nat (List.length pages)))]))
    = map (fun i => Some (k + Z.of_nat i)) (seq 0 (S (List.length pages))).
Proof.
  induction pages as [|page rest IH]; intros k.
  - reflexivity.
  - cbn [pages_trace app filter is_page_request session_request req_page map].
    rewrite <- app_assoc, filter_app, filter_detail_requests. cbn [app].
    assert (Hk : k + Z.of_nat (List.length (page :: rest))
                 = k + 1 + Z.of_nat (List.length rest))
      by (cbn [List.length]; lia).
    rewrite Hk, IH.
    change (seq 0 (S (List.length (page :: rest))))
      with (0%nat :: seq 1 (S (List.length rest))).
    cbn [map]. rewrite <- seq_shift, map_map.
    f_equal; [f_equal; cbn; lia|].
    apply map_ext. intros i. f_equal. lia.
Qed.

(** C2.  Against a source whose non-empty pages are pages 1..N (page
    N+1 being empty), [get_todos] returns the detail records of all
    summaries in pagination order; the requests it issues are, page by
    page from page 1, the page request followed by one detail request
    per summary in page order, and last the request of the empty page
    N+1: the page requests are exactly those of pages 1, 2, ..., N+1. *)
Theorem get_todos_paginates (self : BasecampClient) (project pid : json)
  (pages : list (list (json * json))) (fuel : nat) (w : world) :
  getitem project "id" = Ok pid ->
  pages_served self (todos_url self pid) 1 pages ->
  serves (session_request self (JStr (todos_url self pid))
            (Some (1 + Z.of_nat (List.length pages)))) (JArr []) ->
  (List.length pages < fuel)%nat ->
  let trace :=
    (pages_trace self (todos_url self pid) 1 pages
     ++ [session_request self (JStr (todos_url self pid))
           (Some (1 + Z.of_nat (List.length pages)))])%list in
  get_todos fuel self project w
  = Some (Ok (map snd (List.concat pages)), log_requests trace w)
  /\ map req_page (filter is_page_request trace)
     = map (fun i => Some (1 + Z.of_nat i)) (seq 0 (S (List.length pages)))
  /\ filter (fun r => negb (is_page_request r)) trace
     = detail_requests self (List.concat pages).
Proof.
  intros Hid Hp Hend Hfuel trace. split; [|split].
  - unfold get_todos. rewrite Hid.
    now rewrite (get_todos_loop_served self _ pages 1 [] w fuel Hp Hend Hfuel).
  - apply page_requests_of_trace.
  - unfold trace. clear. generalize 1 at 1 2 as k.
    induction pages as [|page rest IH]; intros k; [reflexivity|].
    cbn [pages_trace app filter is_page_request session_request req_page negb
         List.concat].
    rewrite <- app_assoc, filter_app.
    assert (Hk : k + Z.of_nat (List.length (page :: rest))
                 = k + 1 + Z.of_nat (List.length rest))
      by (cbn [List.length]; lia).
    rewrite Hk, IH. unfold detail_requests at 3. rewrite map_app.
    f_equal. clear. induction page as [|e r IHr]; [reflexivity|].
    cbn [detail_requests map filter is_page_request session_request req_page
         negb]. f_equal. exact IHr.
Qed.


Lemma get_todos_details_prefix (self : BasecampClient)
  (good : list (json * json)) (more : list json) :
  details_served self good ->
  forall todos w,
    get_todos_details self (map fst good ++ more) todos w
    = get_todos_details self more (todos ++ map snd good)
        (log_requests (detail_requests self good) w).
Proof.
  induction good as [|e rest IH]; intros Hd todos w.
  - cbn. now rewrite app_nil_r, log_requests_nil.
  - destruct Hd as [[l Hl] [Hs Hrest]].
    assert (Hu : summary_url (fst e) = l) by (unfold summary_url; now rewrite Hl).
    rewrite Hu in Hs.
    destruct (session_get_serves self l None (snd e) w Hs) as [s [Hok Hget]].
    cbn [map app get_todos_details]. unfold bind at 1, lift at 1. rewrite Hl.
    unfold bind at 1. rewrite Hget.
    unfold bind at 1, lift at 1. rewrite (raise_for_status_ok _ _ Hok).
    unfold bind at 1, lift at 1. cbn [response_json body].
    rewrite (IH Hrest). cbn [detail_requests map]. rewrite Hu.
    rewrite log_request_one, log_requests_app. cbn [app].
    now rewrite <- app_assoc.
Qed.


Lemma get_todos_loop_skip (self : BasecampClient) (u : string)
  (pages : list (list (json * json))) :
  forall (k : Z) (todos : list json) (w : world) (fuel : nat),
    pages_served self u k pages ->
    get_todos_loop (List.length pages + fuel) self u k todos w
    = get_todos_loop fuel self u (k + Z.of_nat (List.length pages))
        (todos ++ map snd (List.concat pages))
        (log_requests (pages_trace self u k pages) w).
Proof.
  induction pages as [|page rest IH]; intros k todos w fuel Hp.
  - cbn. rewrite app_nil_r, log_requests_nil. now replace (k + 0) with k by lia.
  - destruct Hp as [Hne [Hs [Hd Hrest]]].
    cbn [List.length Nat.add get_todos_loop].
    rewrite (get_todos_page_served self u k page todos w Hs Hd).
    rewrite (truthy_page page Hne). cbn [negb].
    rewrite (IH (k + 1) _ _ fuel Hrest).
    rewrite log_requests_app. cbn [List.concat pages_trace].
    rewrite map_app, <- !app_assoc. cbn [app].
    replace (k + 1 + Z.of_nat (List.length rest))
      with (k + Z.of_nat (S (List.length rest))) by lia.
    reflexivity.
Qed.



(** *** Every run of [get_todos] stops at the first failing request *)

Lemma replies_app (reqs1 reqs2 : list request) :
  forall h,
    replies h (reqs1 ++ reqs2)
    = (replies h reqs1 ++ replies (h ++ reqs1) reqs2)%list.
Proof.
  induction reqs1 as [|req rest IH]; intros h; cbn [replies app].
  - now rewrite app_nil_r.
  - rewrite IH, <- app_assoc. reflexivity.
Qed.

Lemma clean_run_nil {A} (h : list request) (r : result A) :
  clean_run h [] r.
Proof. exists [], []. cbn. auto. Qed.

Lemma clean_run_raise {A B} (h reqs : list request) (e : exn) :
  clean_run h reqs (Raise e : result A) ->
  clean_run h reqs (Raise e : result B).
Proof.
  intros (front & tail & Hr & Hf & Ht). exists front, tail.
  split; [exact Hr|]. split; [exact Hf|].
  destruct tail as [|rep [|]]; [exact I | | exact Ht].
  destruct Ht as [Hrep He]. split; [exact Hrep|]. congruence.
Qed.

Lemma clean_run_ok {A B} (h reqs : list request) (a : A) (b : B) :
  clean_run h reqs (Ok a) -> clean_run h reqs (Ok b).
Proof.
  intros (front & tail & Hr & Hf & Ht). exists front, tail.
  split; [exact Hr|]. split; [exact Hf|].
  destruct tail as [|rep [|]]; [exact I | | exact Ht].
  destruct Ht as [_ He]. discriminate.
Qed.

Lemma clean_run_app {A B} (h reqs1 reqs2 : list request) (a : A)
  (r : result B) :
  clean_run h reqs1 (Ok a) ->
  clean_run (h ++ reqs1) reqs2 r ->
  clean_run h (reqs1 ++ reqs2) r.
Proof.
  intros (front1 & tail1 & Hr1 & Hf1 & Ht1) (front2 & tail2 & Hr2 & Hf2 & Ht2).
  destruct tail1 as [|rep [|]];
    [| destruct Ht1 as [_ He]; discriminate | contradiction].
  rewrite app_nil_r in Hr1.
  exists (front1 ++ front2)%list, tail2.
  split; [now rewrite replies_app, Hr1, Hr2, app_assoc|].
  split; [|exact Ht2].
  rewrite forallb_app, Hf1, Hf2. reflexivity.
Qed.

Lemma traced_ret {A} (a : A) : traced (ret a).
Proof.
  intros w. exists []. cbn. split; [now rewrite log_requests_nil|].
  apply clean_run_nil.
Qed.

Lemma traced_lift {A} (r : result A) : traced (lift r).
Proof.
  intros w. exists []. cbn. split; [now rewrite log_requests_nil|].
  apply clean_run_nil.
Qed.

Lemma traced_bind {A B} (m : M A) (k : A -> M B) :
  traced m -> (forall a, traced (k a)) -> traced (bind m k).
Proof.
  intros Hm Hk w. unfold bind.
  destruct (Hm w) as [reqs1 [Hw1 Hc1]].
  destruct (m w) as [[a|e] w1]; cbn [fst snd] in *.
  - destruct (Hk a w1) as [reqs2 [Hw2 Hc2]].
    exists (reqs1 ++ reqs2)%list. split.
    + now rewrite Hw2, Hw1, log_requests_app.
    + apply (clean_run_app _ _ _ a); [exact Hc1|].
      subst w1. exact Hc2.
  - exists reqs1. split; [exact Hw1|]. exact (clean_run_raise _ _ _ Hc1).
Qed.

(** One request with its two checks, followed by [k]. *)
Lemma fetch_outcome {B} (self : BasecampClient) (u : json) (page : option Z)
  (k : json -> M B) (w : world) :
  (response <- session_get self u page;;
   _ <- lift (raise_for_status response);;
   v <- lift (response_json response);;
   k v)%M w
  = match remote (requests_log w) (session_request self u page) with
    | Reply s b =>
        if ok_status s
        then match b with
             | Some v => k v (log_request (session_request self u page) w)
             | None => (Raise JSONDecodeError,
                        log_request (session_request self u page) w)
             end
        else (Raise (HTTPError s),
              log_request (session_request self u page) w)
    | NoReply => (Raise RequestException,
                  log_request (session_request self u page) w)
    end.
Proof.
  unfold bind, session_get, lift.
  destruct (remote (requests_log w) _) as [s b|]; [|reflexivity].
  unfold raise_for_status, ok_status, response_json. cbn.
  destruct ((400 <=? s) && (s <? 600)); cbn; [reflexivity|].
  now destruct b.
Qed.

(** One request with its two checks, followed by [k]. *)
Lemma traced_fetch {B} (self : BasecampClient) (u : json) (page : option Z)
  (k : json -> M B) :
  (forall v, traced (k v)) ->
  traced (response <- session_get self u page;;
          _ <- lift (raise_for_status response);;
          v <- lift (response_json response);;
          k v)%M.
Proof.
  intros Hk w. rewrite fetch_outcome.
  set (req := session_request self u page).
  destruct (remote (requests_log w) req) as [s b|] eqn:Hrep.
  - destruct (ok_status s) eqn:Hs.
    + destruct b as [v|].
      * destruct (Hk v (log_request req w)) as [reqs2 [Hw2 Hc2]].
        exists (req :: reqs2). split.
        -- rewrite Hw2, log_request_one, log_requests_app. reflexivity.
        -- apply (clean_run_app _ [req] reqs2 tt); [|exact Hc2].
           exists [Reply s (Some v)], []. cbn [replies app forallb].
           rewrite Hrep. split; [reflexivity|]. split; [|exact I].
           cbn. now rewrite Hs.
      * exists [req]. cbn [fst snd]. split; [reflexivity|].
        exists [], [Reply s None]. cbn [replies app forallb]. rewrite Hrep.
        split; [reflexivity|]. split; [reflexivity|].
        cbn. rewrite Hs. auto.
    + exists [req]. cbn [fst snd]. split; [reflexivity|].
      exists [], [Reply s b]. cbn [replies app forallb]. rewrite Hrep.
      split; [reflexivity|]. split; [reflexivity|].
      unfold ok_reply, error_of. rewrite Hs.
      split; [now destruct b | reflexivity].
  - exists [req]. cbn [fst snd]. split; [reflexivity|].
    exists [], [NoReply]. cbn [replies app forallb]. rewrite Hrep.
    split; [reflexivity|]. split; [reflexivity|]. cbn. auto.
Qed.

Lemma get_todos_details_traced (self : BasecampClient)
  (basic_todos : list json) :
  forall todos, traced (get_todos_details self basic_todos todos).
Proof.
  induction basic_todos as [|basic_todo rest IH]; intros todos;
    cbn [get_todos_details].
  - apply traced_ret.
  - apply traced_bind; [apply traced_lift|]. intros u.
    apply traced_fetch. intros todo. apply IH.
Qed.

Lemma get_todos_page_traced (self : BasecampClient) (u : string) (page : Z)
  (todos : list json) :
  traced (get_todos_page self u page todos).
Proof.
  unfold get_todos_page. apply traced_fetch. intros basic_todos.
  apply traced_bind; [apply traced_lift|]. intros items.
  apply traced_bind; [apply get_todos_details_traced|]. intros todos'.
  apply traced_ret.
Qed.

Lemma get_todos_loop_traced (self : BasecampClient) (u : string) :
  forall (fuel : nat) (page : Z) (todos : list json) (w : world)
         (r : result (list json)) (w' : world),
    get_todos_loop fuel self u page todos w = Some (r, w') ->
    exists reqs,
      w' = log_requests reqs w /\ clean_run (requests_log w) reqs r.
Proof.
  induction fuel as [|fuel IH]; intros page todos w r w' H;
    cbn [get_todos_loop] in H; [discriminate|].
  destruct (get_todos_page_traced self u page todos w) as [reqs1 [Hw1 Hc1]].
  destruct (get_todos_page self u page todos w) as [[[basic todos']|e] w1];
    cbn [fst snd] in *.
  - destruct (negb (truthy basic)).
    + injection H as <- <-. exists reqs1. split; [exact Hw1|].
      exact (clean_run_ok _ _ _ _ Hc1).
    + destruct (IH _ _ _ _ _ H) as [reqs2 [Hw2 Hc2]].
      exists (reqs1 ++ reqs2)%list. split.
      * now rewrite Hw2, Hw1, log_requests_app.
      * apply (clean_run_app _ _ _ (basic, todos')); [exact Hc1|].
        subst w1. exact Hc2.
  - injection H as <- <-. exists reqs1. split; [exact Hw1|].
    exact (clean_run_raise _ _ _ Hc1).
Qed.



Lemma get_todos_only_requests (self : BasecampClient) (project : json)
  (fuel : nat) (w : world) (r : result (list json)) (w' : world) :
  get_todos fuel self project w = Some (r, w') ->
  index_queue w' = index_queue w /\ task_queue w' = task_queue w.
Proof.
  unfold get_todos. destruct (getitem project "id") as [pid|e]; intros H.
  - destruct (get_todos_loop_traced _ _ _ _ _ _ _ _ H) as [reqs [-> _]].
    split; reflexivity.
  - injection H as <- <-. split; reflexivity.
Qed.


(** *** Building documents *)

Lemma rbind_ok {A B} (r : result A) (k : A -> result B) (b : B) :
  rbind r k = Ok b -> exists a, r = Ok a /\ k a = Ok b.
Proof. destruct r as [a|e]; cbn; [eauto | discriminate]. Qed.

Ltac inv_bind H :=
  let a := fresh "v" in
  let Ha := fresh "Hv" in
  apply rbind_ok in H; destruct H as [a [Ha H]].

Lemma mapM_Forall2 {A B} (f : A -> result B) (l : list A) :
  forall ys, mapM f l = Ok ys -> Forall2 (fun x y => f x = Ok y) l ys.
Proof.
  induction l as [|x l IH]; cbn; intros ys H.
  - injection H as <-. constructor.
  - destruct (f x) as [y|e] eqn:Hx; [|discriminate].
    destruct (mapM f l) as [ys'|e] eqn:Hl; [|discriminate].
    injection H as <-. constructor; auto.
Qed.

Lemma Forall2_weaken {A B} (R S : A -> B -> Prop) (l : list A)
  (l' : list B) :
  Forall2 R l l' -> (forall x y, R x y -> S x y) -> Forall2 S l l'.
Proof. induction 1; intros HRS; constructor; auto. Qed.

Lemma mapM_length {A B} (f : A -> result B) (l : list A) (ys : list B) :
  mapM f l = Ok ys -> List.length ys = List.length l.
Proof.
  intros H. apply mapM_Forall2 in H.
  induction H; cbn; congruence.
Qed.

Lemma enqueue_all_nil (w : world) : enqueue_all [] w = w.
Proof.
  destruct w as [l q t]. unfold enqueue_all. cbn. now rewrite app_nil_r.
Qed.

Lemma enqueue_all_app (a b : list BasicDocument) (w : world) :
  enqueue_all b (enqueue_all a w) = enqueue_all (a ++ b) w.
Proof. unfold enqueue_all. cbn. now rewrite app_assoc. Qed.

Lemma feed_todos_built (self : BasecampDataSource) (project : json)
  (todos : list json) :
  forall docs w,
    mapM (todo_document self project) todos = Ok docs ->
    feed_todos self project todos w = (Ok tt, enqueue_all docs w).
Proof.
  induction todos as [|todo rest IH]; cbn [mapM feed_todos]; intros docs w H.
  - injection H as <-. now rewrite enqueue_all_nil.
  - destruct (todo_document self project todo) as [doc|e] eqn:Hd; [|discriminate].
    destruct (mapM (todo_document self project) rest) as [ds|e] eqn:Hr;
      [|discriminate].
    injection H as <-.
    unfold bind at 1, lift at 1. unfold bind at 1, put_single.
    rewrite (IH ds _ eq_refl). now rewrite enqueue_all_app.
Qed.

Lemma feed_todos_failing (self : BasecampDataSource) (project : json)
  (before : list json) (bad : json) (rest : list json) (e : exn) :
  todo_document self project bad = Raise e ->
  forall docs w,
    mapM (todo_document self project) before = Ok docs ->
    feed_todos self project (before ++ bad :: rest) w
    = (Raise e, enqueue_all docs w).
Proof.
  intros Hbad.
  induction before as [|todo before IH]; cbn [mapM feed_todos app];
    intros docs w H.
  - injection H as <-. unfold bind at 1, lift at 1. rewrite Hbad.
    now rewrite enqueue_all_nil.
  - destruct (todo_document self project todo) as [doc|e0] eqn:Hd; [|discriminate].
    destruct (mapM (todo_document self project) before) as [ds|e0] eqn:Hr;
      [|discriminate].
    injection H as <-.
    unfold bind at 1, lift at 1. unfold bind at 1, put_single.
    rewrite (IH ds _ eq_refl). now rewrite enqueue_all_app.
Qed.

(** What a built comment document holds. *)
Lemma comment_document_inv (self : BasecampDataSource)
  (project todo comment : json) (d : BasicDocument) :
  comment_document self project todo comment = Ok d ->
  exists cid creator name raw avatar loc app_url updated_at,
    getitem comment "id" = Ok cid
    /\ getitem comment "creator" = Ok creator
    /\ getitem creator "name" = Ok name
    /\ getitem creator "avatar_url" = Ok avatar
    /\ getitem comment "content" = Ok raw
    /\ getitem project "name" = Ok loc
    /\ getitem todo "app_url" = Ok app_url
    /\ getitem comment "updated_at" = Ok updated_at
    /\ strptime updated_at TIMESTAMP_FORMAT = Ok (timestamp d)
    /\ (if truthy raw
        then exists s, raw = JStr s /\ content d = Some (html_to_text s)
        else content d = None)
    /\ id d = cid /\ data_source_id d = _data_source_id self
    /\ type d = COMMENT /\ title d = name /\ author d = name
    /\ author_image_url d = avatar /\ location d = loc
    /\ url d = JStr (py_str app_url ++ "#comment_" ++ py_str cid)
    /\ children d = [].
Proof.
  unfold comment_document. intros H.
  do 4 inv_bind H. inv_bind H.
  do 9 inv_bind H.
  injection H as <-. cbn.
  rewrite Hv0 in Hv4, Hv6. injection Hv4 as <-. injection Hv6 as <-.
  rewrite Hv1 in Hv5. injection Hv5 as <-.
  rewrite Hv in Hv10. injection Hv10 as <-.
  exists v, v0, v1, v2, v7, v8, v9, v11.
  repeat (split; [assumption || reflexivity|]).
  split; [|repeat split].
  destruct (truthy v2).
  - inv_bind Hv3. inv_bind Hv3. injection Hv3 as <-.
    rewrite Hv2 in Hv4. injection Hv4 as <-.
    destruct v2; cbn in Hv5; try discriminate.
    injection Hv5 as <-. eauto.
  - now injection Hv3 as <-.
Qed.
(** What a built task-item document holds. *)
Lemma todo_document_inv (self : BasecampDataSource) (project todo : json)
  (doc : BasicDocument) :
  todo_document self project todo = Ok doc ->
  exists comments tid creator name raw avatar loc app_url updated_at,
    comments_of todo = Ok comments
    /\ mapM (comment_document self project todo) comments = Ok (children doc)
    /\ getitem todo "id" = Ok tid
    /\ getitem todo "creator" = Ok creator
    /\ getitem creator "name" = Ok name
    /\ getitem creator "avatar_url" = Ok avatar
    /\ getitem todo "content" = Ok (JStr raw)
    /\ getitem project "name" = Ok loc
    /\ getitem todo "app_url" = Ok app_url
    /\ getitem todo "updated_at" = Ok updated_at
    /\ strptime updated_at TIMESTAMP_FORMAT = Ok (timestamp doc)
    /\ content doc = Some (html_to_text raw)
    /\ id doc = tid /\ data_source_id doc = _data_source_id self
    /\ type doc = DOCUMENT /\ title doc = name /\ author doc = name
    /\ author_image_url doc = avatar /\ location doc = loc
    /\ url doc = app_url.
Proof.
  unfold todo_document. intros H.
  do 16 inv_bind H.
  injection H as <-. cbn.
  rewrite Hv3 in Hv7, Hv9. injection Hv7 as <-. injection Hv9 as <-.
  rewrite Hv4 in Hv8. injection Hv8 as <-.
  destruct v5; cbn in Hv6; try discriminate. injection Hv6 as <-.
  exists v0, v2, v3, v4, s, v10, v11, v12, v13.
  unfold comments_of. rewrite Hv. cbn [rbind].
  repeat (split; [assumption || reflexivity|]). reflexivity.
Qed.

(** A task item whose fields are all there builds. *)
Lemma todo_document_built (self : BasecampDataSource) (project todo : json)
  (comments : list json) (docs : list BasicDocument)
  (tid creator name avatar loc app_url updated_at : json) (raw : string)
  (ts : datetime) :
  comments_of todo = Ok comments ->
  mapM (comment_document self project todo) comments = Ok docs ->
  getitem todo "id" = Ok tid ->
  getitem todo "creator" = Ok creator ->
  getitem creator "name" = Ok name ->
  getitem creator "avatar_url" = Ok avatar ->
  getitem todo "content" = Ok (JStr raw) ->
  getitem project "name" = Ok loc ->
  getitem todo "app_url" = Ok app_url ->
  getitem todo "updated_at" = Ok updated_at ->
  forall r,
    rbind (strptime updated_at TIMESTAMP_FORMAT)
      (fun ts =>
         Ok {| id := tid; data_source_id := _data_source_id self;
               type := DOCUMENT; title := name;
               content := Some (html_to_text raw); author := name;
               author_image_url := avatar; location := loc; url := app_url;
               timestamp := ts; children := docs |}) = r ->
    todo_document self project todo = r.
Proof.
  unfold comments_of, todo_document.
  intros Hc Hm Hid Hcr Hn Ha Hraw Hloc Happ Hup r <-.
  destruct (getitem todo "comments") as [cs|e]; [|discriminate].
  cbn [rbind] in *. rewrite Hc. cbn [rbind]. rewrite Hm. cbn [rbind].
  rewrite Hid, Hcr. cbn [rbind]. rewrite Hn, Hraw. cbn [rbind call_html_to_text].
  rewrite Ha, Hloc, Happ, Hup. reflexivity.
Qed.

Lemma comment_documents_built (self : BasecampDataSource)
  (project todo : json) (comments : list json) (docs : list BasicDocument) :
  mapM (comment_document self project todo) comments = Ok docs ->
  Forall2
    (fun comment child =>
       comment_document self project todo comment = Ok child
       /\ type child = COMMENT
       /\ children child = [])
    comments docs.
Proof.
  intros Hm. apply mapM_Forall2 in Hm.
  induction Hm as [|c d cs ds Hcd _ IHm]; [constructor|].
  constructor; [|exact IHm].
  destruct (comment_document_inv _ _ _ _ _ Hcd)
    as (? & ? & ? & ? & ? & ? & ? & ? & _ & _ & _ & _ & _ & _ & _ & _ & _
        & _ & _ & _ & Hty' & _ & _ & _ & _ & _ & Hch).
  auto.
Qed.

(** C1 (amended).  A task item that fails document building ends the
    project's unit with that error: the task items before it are built
    and enqueued, in order; the failing item and every task item after
    it are not enqueued. *)
Theorem feed_project_issues_stops_at_failing_item (fuel : nat)
  (self : BasecampDataSource) (project name : json) (w w1 : world)
  (before : list json) (bad : json) (rest : list json)
  (docs : list BasicDocument) (e : exn) :
  getitem project "name" = Ok name ->
  get_todos fuel (_client self) project w
  = Some (Ok (before ++ bad :: rest)%list, w1) ->
  mapM (todo_document self project) before = Ok docs ->
  todo_document self project bad = Raise e ->
  _feed_project_issues fuel self project w
  = Some (Raise e, enqueue_all docs w1)
  /\ index_queue (enqueue_all docs w1) = (index_queue w ++ docs)%list
  /\ List.length docs = List.length before.
Proof.
  intros Hname Hget Hbefore Hbad.
  destruct (get_todos_only_requests _ _ _ _ _ _ Hget) as [Hq _].
  split; [|split; [cbn; now rewrite Hq|]].
  - unfold _feed_project_issues. rewrite Hname. cbn [rbind].
    assert (Hid : exists pid, getitem project "id" = Ok pid).
    { unfold get_todos in Hget.
      destruct (getitem project "id") as [pid|e0]; [eauto|].
      injection Hget as Hr _. discriminate. }
    destruct Hid as [pid ->]. cbn [rbind]. rewrite Hget.
    now rewrite (feed_todos_failing self project before bad rest e Hbad docs w1).
  - exact (mapM_length _ _ _ Hbefore).
Qed.

(** C3 (amended).  In a built task-item document the content of the
    DOCUMENT parent is always the conversion of the raw content (a
    str), with no test for emptiness; the content of a COMMENT child
    is the conversion of the raw content when that is truthy, and None
    when the raw content is there but falsy (empty or null). *)
Theorem content_of_built_documents (self : BasecampDataSource)
  (project todo : json) (doc : BasicDocument) :
  todo_document self project todo = Ok doc ->
  (exists raw, getitem todo "content" = Ok (JStr raw)
               /\ content doc = Some (html_to_text raw))
  /\ exists comments,
       comments_of todo = Ok comments
       /\ Forall2
            (fun comment child =>
               exists raw,
                 getitem comment "content" = Ok raw
                 /\ if truthy raw
                    then exists s, raw = JStr s
                                   /\ content child = Some (html_to_text s)
                    else content child = None)
            comments (children doc).
Proof.
  intros Hd.
  destruct (todo_document_inv _ _ _ _ Hd)
    as (comments & tid & creator & nm & raw & avatar & loc & app & upd
        & Hc & Hm & _ & _ & _ & _ & Hraw & _ & _ & _ & _ & Hcnt & _).
  split; [eauto|]. exists comments. split; [exact Hc|].
  apply mapM_Forall2 in Hm.
  apply (Forall2_weaken _ _ _ _ Hm). intros c d Hcd.
  destruct (comment_document_inv _ _ _ _ _ Hcd)
    as (? & ? & ? & raw' & ? & ? & ? & ? & _ & _ & _ & _ & Hr & _ & _ & _ & _
        & Hcontent & _).
  eauto.
Qed.



(** *** The probe and the enumeration *)

Lemma get_projects_outcome (self : BasecampClient) (w : world) :
  get_projects self w
  = (match remote (requests_log w) (projects_request self) with
     | Reply s b =>
         if ok_status s
         then match b with
              | Some v => Ok v
              | None => Raise JSONDecodeError
              end
         else Raise (HTTPError s)
     | NoReply => Raise RequestException
     end,
     log_request (projects_request self) w).
Proof.
  unfold get_projects, bind, lift, session_get, projects_request.
  destruct (remote (requests_log w) _) as [s b|]; [|reflexivity].
  unfold raise_for_status, ok_status, response_json. cbn.
  destruct ((400 <=? s) && (s <? 600)); cbn; [reflexivity|].
  now destruct b.
Qed.

(** C4 (amended).  With the three keys present, [validate_config]
    sends exactly one request, the project listing of a client built
    from the candidate values, and changes nothing else.  An error
    status (4xx, 5xx) is raised as InvalidDataSourceConfig; a listing
    that arrives is dropped and the call returns None; a request that
    gets no answer (connection failure, timeout) raises the error of
    the HTTP library, which is not translated. *)
Theorem validate_config_probe (config u username password : json)
  (w : world) :
  getitem config "url" = Ok u ->
  getitem config "username" = Ok username ->
  getitem config "password" = Ok password ->
  let req := projects_request (BasecampClient_init u username password) in
  validate_config config w
  = (match remote (requests_log w) req with
     | Reply s b =>
         if ok_status s
         then match b with
              | Some _ => Ok tt
              | None => Raise JSONDecodeError
              end
         else Raise (InvalidDataSourceConfig (HTTPError s))
     | NoReply => Raise RequestException
     end,
     log_request req w)
  /\ requests_log (log_request req w) = (requests_log w ++ [req])%list
  /\ index_queue (log_request req w) = index_queue w
  /\ task_queue (log_request req w) = task_queue w.
Proof.
  intros Hu Hn Hp req. split; [|repeat split].
  unfold validate_config.
  unfold bind at 1, lift at 1. rewrite Hu.
  unfold bind at 1, lift at 1. rewrite Hn.
  unfold bind at 1, lift at 1. rewrite Hp.
  unfold bind at 1. rewrite get_projects_outcome. fold req.
  destruct (remote (requests_log w) req) as [s b|]; [|reflexivity].
  destruct (ok_status s); [|reflexivity].
  now destruct b.
Qed.

(** C10.  A configuration dict that lacks one of the keys "url",
    "username", "password" makes [validate_config] raise KeyError for
    the first key missing; the KeyError is not turned into
    InvalidDataSourceConfig, and no request has been sent. *)
Theorem validate_config_missing_key (fields : list (string * json))
  (w : world) :
  assoc "url" fields = None
  \/ assoc "username" fields = None
  \/ assoc "password" fields = None ->
  exists k,
    In k ["url"; "username"; "password"]
    /\ assoc k fields = None
    /\ validate_config (JObj fields) w = (Raise (KeyError k), w).
Proof.
  intros H. unfold validate_config, bind, lift, getitem.
  destruct (assoc "url" fields) as [u|] eqn:Hu.
  - destruct (assoc "username" fields) as [n|] eqn:Hn.
    + destruct (assoc "password" fields) as [p|] eqn:Hp.
      * destruct H as [H | [H | H]]; discriminate.
      * exists "password". cbn. auto.
    + exists "username". cbn. auto.
  - exists "url". cbn. auto.
Qed.

(** C7.  When the project listing fails, with an error status or
    without an answer, [_feed_new_documents] raises that error after
    its one request: no document is enqueued and no project unit is
    scheduled. *)
Theorem feed_new_documents_fails_with_enumeration
  (self : BasecampDataSource) (w : world) (e : exn) :
  enumeration_failure
    (remote (requests_log w) (projects_request (_client self))) e ->
  _feed_new_documents self w
  = (Raise e, log_request (projects_request (_client self)) w)
  /\ index_queue (log_request (projects_request (_client self)) w)
     = index_queue w
  /\ task_queue (log_request (projects_request (_client self)) w)
     = task_queue w.
Proof.
  intros H. split; [|split; reflexivity].
  unfold _feed_new_documents. unfold bind at 1.
  rewrite get_projects_outcome.
  destruct (remote (requests_log w) _) as [s b|]; cbn in H.
  - destruct H as [Hs ->]. now rewrite Hs.
  - now subst e.
Qed.
(** *** Further properties: configuration and enumeration *)

(** X1.  The keys that [BasecampDataSource.__init__] reads are the
    names of the fields of [get_config_fields]: the data source is
    built exactly when the configuration dict holds every one of them. *)
Theorem config_fields_are_the_required_keys (fields : list (string * json))
  (dsid : Z) :
  (exists self, BasecampDataSource_init (JObj fields) dsid = Ok self)
  <-> Forall (fun f => assoc (name f) fields <> None) get_config_fields.
Proof.
  unfold BasecampDataSource_init, get_config_fields, getitem. cbn [name].
  split.
  - intros [self H].
    destruct (assoc "url" fields) eqn:Hu; [|discriminate].
    destruct (assoc "username" fields) eqn:Hn; [|discriminate].
    destruct (assoc "password" fields) eqn:Hp; [|discriminate].
    constructor; [cbn [name]; rewrite Hu; discriminate|].
    constructor; [cbn [name]; rewrite Hn; discriminate|].
    constructor; [cbn [name]; rewrite Hp; discriminate|]. constructor.
  - intros H. inversion H as [|? ? Hu H1]; subst.
    inversion H1 as [|? ? Hn H2]; subst.
    inversion H2 as [|? ? Hp _]; subst.
    cbn [name] in Hu, Hn, Hp.
    destruct (assoc "url" fields); [|congruence].
    destruct (assoc "username" fields); [|congruence].
    destruct (assoc "password" fields); [|congruence].
    cbn. eauto.
Qed.

Lemma getitem_raises (v : json) (k : string) (e : exn) :
  getitem v k = Raise e -> e = KeyError k \/ e = TypeError.
Proof.
  unfold getitem. destruct v; try (intros H; injection H as <-; now right).
  destruct (assoc k fields); [discriminate|].
  intros H. injection H as <-. now left.
Qed.

Lemma validate_config_with_keys (config u n p : json) (w : world) :
  getitem config "url" = Ok u ->
  getitem config "username" = Ok n ->
  getitem config "password" = Ok p ->
  validate_config config w
  = (match remote (requests_log w)
             (projects_request (BasecampClient_init u n p)) with
     | Reply s b =>
         if ok_status s
         then match b with
              | Some _ => Ok tt
              | None => Raise JSONDecodeError
              end
         else Raise (InvalidDataSourceConfig (HTTPError s))
     | NoReply => Raise RequestException
     end,
     log_request (projects_request (BasecampClient_init u n p)) w).
Proof.
  intros Hu Hn Hp. unfold validate_config.
  unfold bind at 1, lift at 1. rewrite Hu.
  unfold bind at 1, lift at 1. rewrite Hn.
  unfold bind at 1, lift at 1. rewrite Hp.
  unfold bind at 1. rewrite get_projects_outcome.
  destruct (remote (requests_log w) _) as [s b|]; [|reflexivity].
  destruct (ok_status s); [|reflexivity].
  now destruct b.
Qed.

Lemma validate_config_lookup_fails (config : json) (w : world) (e : exn) :
  getitem config "url" = Raise e
  \/ (exists u, getitem config "url" = Ok u)
     /\ (getitem config "username" = Raise e
         \/ (exists n, getitem config "username" = Ok n)
            /\ getitem config "password" = Raise e) ->
  validate_config config w = (Raise e, w).
Proof.
  unfold validate_config, bind, lift.
  intros [Hu | [[u Hu] [Hn | [[n Hn] Hp]]]].
  - rewrite Hu. now destruct (getitem_raises _ _ _ Hu) as [-> | ->].
  - rewrite Hu, Hn. now destruct (getitem_raises _ _ _ Hn) as [-> | ->].
  - rewrite Hu, Hn, Hp. now destruct (getitem_raises _ _ _ Hp) as [-> | ->].
Qed.

(** X2.  A configuration that [validate_config] accepts builds a data
    source, and the request that was sent as the probe is the project
    listing request of that data source's client: same URL, same
    credentials, same User-Agent. *)
Theorem validated_config_builds_the_probed_client (config : json) (dsid : Z)
  (w w' : world) :
  validate_config config w = (Ok tt, w') ->
  exists self,
    BasecampDataSource_init config dsid = Ok self
    /\ _raw_config self = config
    /\ _data_source_id self = dsid
    /\ w' = log_request (projects_request (_client self)) w.
Proof.
  intros H. unfold BasecampDataSource_init.
  destruct (getitem config "url") as [u|e] eqn:Hu.
  2:{ rewrite (validate_config_lookup_fails config w e) in H by auto.
      discriminate. }
  destruct (getitem config "username") as [n|e] eqn:Hn.
  2:{ rewrite (validate_config_lookup_fails config w e) in H by eauto.
      discriminate. }
  destruct (getitem config "password") as [p|e] eqn:Hp.
  2:{ rewrite (validate_config_lookup_fails config w e) in H by eauto 8.
      discriminate. }
  rewrite (validate_config_with_keys config u n p w Hu Hn Hp) in H.
  injection H as _ <-. cbn [rbind]. eexists. split; [reflexivity|].
  cbn. repeat split.
Qed.

(** X3.  Whatever the configuration and whatever the remote answers,
    [validate_config] never lets an HTTPError out (it is always
    wrapped), sends at most one request, and leaves the index queue
    and the task queue alone. *)
Theorem validate_config_effects (config : json) (w : world) :
  (forall s, fst (validate_config config w) <> Raise (HTTPError s))
  /\ (snd (validate_config config w) = w
      \/ exists req, snd (validate_config config w) = log_request req w).
Proof.
  assert (Hfail : forall e,
             validate_config config w = (Raise e, w) ->
             e = KeyError "url" \/ e = KeyError "username"
             \/ e = KeyError "password" \/ e = TypeError ->
             (forall s, fst (validate_config config w) <> Raise (HTTPError s))
             /\ (snd (validate_config config w) = w
                 \/ exists req,
                      snd (validate_config config w) = log_request req w)).
  { intros e -> He. split; [|now left]. intros s. cbn.
    destruct He as [-> | [-> | [-> | ->]]]; discriminate. }
  destruct (getitem config "url") as [u|e] eqn:Hu.
  2:{ apply (Hfail e).
      - apply validate_config_lookup_fails. auto.
      - destruct (getitem_raises _ _ _ Hu); auto. }
  destruct (getitem config "username") as [n|e] eqn:Hn.
  2:{ apply (Hfail e).
      - apply validate_config_lookup_fails. eauto.
      - destruct (getitem_raises _ _ _ Hn); auto. }
  destruct (getitem config "password") as [p|e] eqn:Hp.
  2:{ apply (Hfail e).
      - apply validate_config_lookup_fails. eauto 8.
      - destruct (getitem_raises _ _ _ Hp); auto. }
  rewrite (validate_config_with_keys config u n p w Hu Hn Hp).
  split; [|right; eexists; reflexivity].
  intros s. cbn [fst].
  destruct (remote (requests_log w) _) as [s' b|]; [|discriminate].
  destruct (ok_status s'); [|discriminate].
  destruct b; discriminate.
Qed.

(** X4.  [get_projects] raises HTTPError with status [s] exactly when
    the answer to its one request has the status [s] between 400 and
    599; the body of such an answer is not looked at. *)
Theorem get_projects_http_error_iff (self : BasecampClient) (w : world)
  (s : Z) :
  fst (get_projects self w) = Raise (HTTPError s)
  <-> exists b,
        remote (requests_log w) (projects_request self) = Reply s b
        /\ 400 <= s < 600.
Proof.
  rewrite get_projects_outcome. cbn [fst]. unfold ok_status. split.
  - destruct (remote (requests_log w) _) as [s' b|]; [|discriminate].
    destruct ((400 <=? s') && (s' <? 600)) eqn:Hs; cbn [negb].
    + intros H. injection H as <-. exists b. split; [reflexivity|].
      apply andb_true_iff in Hs. lia.
    + destruct b; discriminate.
  - intros [b [-> Hs]].
    replace ((400 <=? s) && (s <? 600)) with true; [reflexivity|].
    symmetry. apply andb_true_iff. lia.
Qed.

Lemma schedule_projects_all (projects : list json) :
  forall w,
    schedule_projects projects w
    = (Ok tt, schedule_all (map feed_project_issues_task projects) w).
Proof.
  induction projects as [|project rest IH]; intros w;
    cbn [schedule_projects map].
  - unfold ret, schedule_all. destruct w. cbn. now rewrite app_nil_r.
  - unfold bind at 1, add_task_to_queue. rewrite IH.
    unfold schedule_all. cbn. now rewrite <- app_assoc.
Qed.

(** X5.  When the project listing arrives as a list,
    [_feed_new_documents] schedules one unit per project, in listing
    order, after its single request; it enqueues no document itself. *)
Theorem feed_new_documents_schedules_each_project
  (self : BasecampDataSource) (w : world) (s : Z) (projects : list json) :
  remote (requests_log w) (projects_request (_client self))
  = Reply s (Some (JArr projects)) ->
  ok_status s = true ->
  _feed_new_documents self w
  = (Ok tt,
     schedule_all (map feed_project_issues_task projects)
       (log_request (projects_request (_client self)) w)).
Proof.
  intros Hr Hs. unfold _feed_new_documents. unfold bind at 1.
  rewrite get_projects_outcome, Hr, Hs.
  unfold bind at 1, lift at 1. cbn [py_iter].
  apply schedule_projects_all.
Qed.

(** X6.  When the project listing arrives as a JSON object instead
    (an error body under a success status, say),
    [_feed_new_documents] schedules one unit per key of the object;
    each of these units, run on the key, raises TypeError without
    sending a request or enqueuing anything. *)
Theorem object_listing_schedules_its_keys (self : BasecampDataSource)
  (w : world) (s : Z) (fields : list (string * json)) :
  remote (requests_log w) (projects_request (_client self))
  = Reply s (Some (JObj fields)) ->
  ok_status s = true ->
  _feed_new_documents self w
  = (Ok tt,
     schedule_all
       (map (fun kv => feed_project_issues_task (JStr (fst kv))) fields)
       (log_request (projects_request (_client self)) w))
  /\ forall k fuel w1,
       _feed_project_issues fuel self (JStr k) w1
       = Some (Raise TypeError, w1).
Proof.
  intros Hr Hs. split.
  - unfold _feed_new_documents. unfold bind at 1.
    rewrite get_projects_outcome, Hr, Hs.
    unfold bind at 1, lift at 1. cbn [py_iter].
    rewrite schedule_projects_all, map_map. reflexivity.
  - intros k fuel w1. reflexivity.
Qed.

(** *** Further properties: the unit of one project *)

(** X7.  When fetching the task items fails, the unit raises that
    error and enqueues nothing, whatever detail records had been
    fetched before the failure. *)
Theorem feed_project_issues_fetch_failure (fuel : nat)
  (self : BasecampDataSource) (project pname : json) (w w1 : world)
  (e : exn) :
  getitem project "name" = Ok pname ->
  get_todos fuel (_client self) project w = Some (Raise e, w1) ->
  _feed_project_issues fuel self project w = Some (Raise e, w1)
  /\ index_queue w1 = index_queue w
  /\ task_queue w1 = task_queue w.
Proof.
  intros Hname Hget. split.
  - unfold _feed_project_issues. rewrite Hname. cbn [rbind].
    destruct (getitem project "id") as [pid|e0] eqn:Hid; cbn [rbind].
    + now rewrite Hget.
    + unfold get_todos in Hget. rewrite Hid in Hget.
      now injection Hget as <- <-.
  - exact (get_todos_only_requests _ _ _ _ _ _ Hget).
Qed.

Lemma feed_todos_only_enqueues (self : BasecampDataSource) (project : json)
  (todos : list json) :
  forall w,
    exists docs,
      snd (feed_todos self project todos w) = enqueue_all docs w
      /\ Forall (fun d => type d = DOCUMENT) docs
      /\ (List.length docs <= List.length todos)%nat
      /\ (fst (feed_todos self project todos w) = Ok tt ->
          List.length docs = List.length todos).
Proof.
  induction todos as [|todo rest IH]; intros w; cbn [feed_todos].
  - exists []. cbn. rewrite enqueue_all_nil. auto.
  - unfold bind at 1, lift at 1.
    destruct (todo_document self project todo) as [doc|e] eqn:Hd.
    + unfold bind at 1, put_single.
      destruct (IH (enqueue_all [doc] w)) as (docs & Hw & Hty & Hlen & Hok).
      exists (doc :: docs). rewrite Hw, enqueue_all_app. cbn [app List.length].
      split; [reflexivity|]. split; [|split; [lia|]].
      * constructor; [|exact Hty].
        destruct (todo_document_inv _ _ _ _ Hd)
          as (? & ? & ? & ? & ? & ? & ? & ? & ? & _ & _ & _ & _ & _ & _ & _
              & _ & _ & _ & _ & _ & _ & _ & Hdoc & _).
        exact Hdoc.
      * intros H. now rewrite (Hok H).
    + exists []. cbn. rewrite enqueue_all_nil.
      split; [reflexivity|]. split; [constructor|]. split; [lia|].
      discriminate.
Qed.

(** X8.  Once the task items are fetched, the unit sends no further
    request and schedules nothing: what it adds is DOCUMENT-type
    documents on the index queue, at most one per fetched task item,
    and exactly one per task item when it returns normally. *)
Theorem feed_project_issues_builds_without_requests (fuel : nat)
  (self : BasecampDataSource) (project pname : json) (w w1 : world)
  (todos : list json) :
  getitem project "name" = Ok pname ->
  get_todos fuel (_client self) project w = Some (Ok todos, w1) ->
  exists r docs,
    _feed_project_issues fuel self project w = Some (r, enqueue_all docs w1)
    /\ requests_log (enqueue_all docs w1) = requests_log w1
    /\ task_queue (enqueue_all docs w1) = task_queue w
    /\ index_queue (enqueue_all docs w1) = (index_queue w ++ docs)%list
    /\ Forall (fun d => type d = DOCUMENT) docs
    /\ (List.length docs <= List.length todos)%nat
    /\ (r = Ok tt -> List.length docs = List.length todos).
Proof.
  intros Hname Hget.
  destruct (get_todos_only_requests _ _ _ _ _ _ Hget) as [Hq Ht].
  destruct (feed_todos_only_enqueues self project todos w1)
    as (docs & Hw & Hty & Hlen & Hok).
  exists (fst (feed_todos self project todos w1)), docs.
  split; [|repeat split; cbn; auto; congruence].
  unfold _feed_project_issues. rewrite Hname. cbn [rbind].
  assert (Hid : exists pid, getitem project "id" = Ok pid).
  { unfold get_todos in Hget.
    destruct (getitem project "id") as [pid|e0]; [eauto|].
    injection Hget as Hr _. discriminate. }
  destruct Hid as [pid ->]. cbn [rbind]. rewrite Hget, <- Hw.
  now destruct (feed_todos self project todos w1).
Qed.

Lemma mapM_fails_at {A B} (f : A -> result B) (before : list A) (bad : A)
  (rest : list A) (e : exn) :
  f bad = Raise e ->
  forall ys, mapM f before = Ok ys ->
             mapM f (before ++ bad :: rest) = Raise e.
Proof.
  intros Hbad. induction before as [|x before IH]; cbn [mapM app]; intros ys H.
  - now rewrite Hbad.
  - destruct (f x) as [y|e0]; [|discriminate].
    destruct (mapM f before) as [ys'|e0]; [|discriminate].
    now rewrite (IH ys' eq_refl).
Qed.

(** X9.  A task item is built with all of its comments or not at
    all: when one comment fails to build (those before it building),
    building the task item raises that comment's error, so no parent
    is enqueued with part of its comments. *)
Theorem todo_document_fails_with_its_comment (self : BasecampDataSource)
  (project todo : json) (before : list json) (bad : json) (rest : list json)
  (docs : list BasicDocument) (e : exn) :
  comments_of todo = Ok (before ++ bad :: rest)%list ->
  mapM (comment_document self project todo) before = Ok docs ->
  comment_document self project todo bad = Raise e ->
  todo_document self project todo = Raise e.
Proof.
  unfold comments_of, todo_document. intros Hc Hbefore Hbad.
  destruct (getitem todo "comments") as [cs|e0]; [|discriminate].
  cbn [rbind] in *. rewrite Hc. cbn [rbind].
  now rewrite (mapM_fails_at _ before bad rest e Hbad docs Hbefore).
Qed.

Lemma Forall2_Forall_r {A B} (R : A -> B -> Prop) (P : B -> Prop)
  (l : list A) (l' : list B) :
  Forall2 R l l' -> (forall x y, R x y -> P y) -> Forall P l'.
Proof. induction 1; intros HRP; constructor; eauto. Qed.

(** X10.  In a built tree the title of every document is its author
    (the creator's name); parent and children carry the same location
    (the project's name) and the same data source id; the url of the
    parent is the task item's app_url, and the url of each child is
    the parent's url followed by "#comment_" and the child's id. *)
Theorem tree_fields_agree (self : BasecampDataSource) (project todo : json)
  (doc : BasicDocument) :
  todo_document self project todo = Ok doc ->
  title doc = author doc
  /\ data_source_id doc = _data_source_id self
  /\ getitem project "name" = Ok (location doc)
  /\ getitem todo "app_url" = Ok (url doc)
  /\ Forall
       (fun child =>
          title child = author child
          /\ location child = location doc
          /\ data_source_id child = data_source_id doc
          /\ url child
             = JStr (py_str (url doc) ++ "#comment_" ++ py_str (id child)))
       (children doc).
Proof.
  intros Hd.
  destruct (todo_document_inv _ _ _ _ Hd)
    as (comments & tid & creator & nm & raw & avatar & loc & app & upd
        & Hc & Hm & _ & _ & _ & _ & _ & Hloc & Happ & _ & _ & _ & _ & Hds
        & _ & Hti & Hau & _ & Hlo & Hurl).
  subst. repeat split; try congruence.
  apply mapM_Forall2 in Hm.
  apply (Forall2_Forall_r _ _ _ _ Hm). intros c d Hcd.
  destruct (comment_document_inv _ _ _ _ _ Hcd)
    as (cid & ? & cname & ? & ? & cloc & capp & ? & _ & _ & _ & _ & _
        & Hcloc & Hcapp & _ & _ & _ & Hcid & Hcds & _ & Hcti & Hcau & _
        & Hclo & Hcurl & _).
  rewrite Hloc in Hcloc. injection Hcloc as <-.
  rewrite Happ in Hcapp. injection Hcapp as <-.
  subst. repeat split; congruence.
Qed.

(** X11.  The emptiness test of a comment reads the "content" key: a
    comment that has its id and its creator's name but no "content"
    key raises KeyError("content"); nothing is defaulted to None. *)
Theorem comment_without_content_key (self : BasecampDataSource)
  (project todo : json) (fields : list (string * json))
  (cid creator cname : json) :
  assoc "id" fields = Some cid ->
  assoc "creator" fields = Some creator ->
  getitem creator "name" = Ok cname ->
  assoc "content" fields = None ->
  comment_document self project todo (JObj fields)
  = Raise (KeyError "content").
Proof.
  intros Hid Hcr Hn Hc. unfold comment_document, getitem at 1 2 4.
  rewrite Hid, Hcr. cbn [rbind]. rewrite Hn. cbn [rbind].
  now rewrite Hc.
Qed.

(** *** Further properties: pagination *)

Lemma get_todos_loop_endless (self : BasecampClient) (u : string)
  (pages : Z -> list (json * json)) :
  (forall k, 1 <= k ->
             pages k <> []
             /\ serves (session_request self (JStr u) (Some k))
                       (JArr (map fst (pages k)))
             /\ details_served self (pages k)) ->
  forall (fuel : nat) (k : Z) (todos : list json) (w : world),
    1 <= k -> get_todos_loop fuel self u k todos w = None.
Proof.
  intros Hp. induction fuel as [|fuel IH]; intros k todos w Hk;
    cbn [get_todos_loop]; [reflexivity|].
  destruct (Hp k Hk) as [Hne [Hs Hd]].
  rewrite (get_todos_page_served self u k (pages k) todos w Hs Hd).
  rewrite (truthy_page _ Hne). cbn [negb]. apply IH. lia.
Qed.

(** X12.  The loop of [get_todos] has no bound of its own: against a
    source every page of which is non-empty (and served with its
    detail records), no number of rounds makes [get_todos] return. *)
Theorem get_todos_never_returns_without_empty_page (self : BasecampClient)
  (project pid : json) (pages : Z -> list (json * json)) (w : world) :
  getitem project "id" = Ok pid ->
  (forall k, 1 <= k ->
             pages k <> []
             /\ serves (session_request self (JStr (todos_url self pid))
                          (Some k))
                       (JArr (map fst (pages k)))
             /\ details_served self (pages k)) ->
  forall fuel, get_todos fuel self project w = None.
Proof.
  intros Hid Hp fuel. unfold get_todos. rewrite Hid.
  apply (get_todos_loop_endless self _ pages Hp). lia.
Qed.

Lemma falsy_iterates_nothing (v : json) (items : list json) :
  truthy v = false -> py_iter v = Ok items -> items = [].
Proof.
  destruct v as [| | |s|l|l]; cbn; try discriminate.
  - destruct s; cbn; [|discriminate]. intros _ H. now injection H.
  - destruct l; [|discriminate]. intros _ H. now injection H.
  - destruct l; [|discriminate]. intros _ H. now injection H.
Qed.

(** X13.  What ends the pagination is a page that is falsy, not an
    empty list as such: after any pages served in full, a next page
    whose body is an empty list, an empty object or an empty string
    makes [get_todos] return the records fetched so far, while a body
    that is null, false or zero raises TypeError (it is iterated
    before it is tested) and the records are lost. *)
Theorem get_todos_ends_on_falsy_page (self : BasecampClient)
  (project pid : json) (pages : list (list (json * json))) (fuel : nat)
  (w : world) (v : json) :
  getitem project "id" = Ok pid ->
  pages_served self (todos_url self pid) 1 pages ->
  (List.length pages < fuel)%nat ->
  serves (session_request self (JStr (todos_url self pid))
            (Some (1 + Z.of_nat (List.length pages)))) v ->
  truthy v = false ->
  get_todos fuel self project w
  = Some (match py_iter v with
          | Ok _ => Ok (map snd (List.concat pages))
          | Raise e => Raise e
          end,
          log_requests
            (pages_trace self (todos_url self pid) 1 pages
             ++ [session_request self (JStr (todos_url self pid))
                   (Some (1 + Z.of_nat (List.length pages)))]) w).
Proof.
  intros Hid Hp Hfuel Hs Hv.
  assert (Hsplit : exists fuel', fuel = (List.length pages + S fuel')%nat).
  { exists (fuel - List.length pages - 1)%nat. lia. }
  destruct Hsplit as [fuel' ->].
  unfold get_todos. rewrite Hid.
  rewrite (get_todos_loop_skip self _ pages 1 [] w (S fuel') Hp).
  cbn [get_todos_loop app].
  unfold get_todos_page. rewrite fetch_outcome.
  destruct (Hs (requests_log
                  (log_requests (pages_trace self (todos_url self pid) 1 pages)
                     w))) as [s [Hr Hok]].
  rewrite Hr, Hok. unfold bind at 1, lift at 1.
  rewrite log_request_one, log_requests_app.
  destruct (py_iter v) as [items|e] eqn:Hi; [|reflexivity].
  rewrite (falsy_iterates_nothing v items Hv Hi).
  unfold bind at 1. cbn [get_todos_details]. unfold ret. cbn [snd fst].
  now rewrite Hv.
Qed.

(** X14.  A summary without a "url" key makes [get_todos] raise the
    lookup error right there: the detail records of the summaries
    before it have been requested, its own and those of the summaries
    after it are not, no further page is requested, and nothing is
    returned. *)
Theorem get_todos_summary_without_url (self : BasecampClient)
  (project pid : json) (pages : list (list (json * json))) (fuel : nat)
  (w : world) (good : list (json * json)) (bad : json) (rest : list json)
  (e : exn) :
  getitem project "id" = Ok pid ->
  pages_served self (todos_url self pid) 1 pages ->
  (List.length pages < fuel)%nat ->
  serves (session_request self (JStr (todos_url self pid))
            (Some (1 + Z.of_nat (List.length pages))))
         (JArr (map fst good ++ bad :: rest)) ->
  details_served self good ->
  getitem bad "url" = Raise e ->
  get_todos fuel self project w
  = Some (Raise e,
          log_requests
            (pages_trace self (todos_url self pid) 1 pages
             ++ session_request self (JStr (todos_url self pid))
                  (Some (1 + Z.of_nat (List.length pages)))
             :: detail_requests self good) w).
Proof.
  intros Hid Hp Hfuel Hs Hd Hbad.
  assert (Hsplit : exists fuel', fuel = (List.length pages + S fuel')%nat).
  { exists (fuel - List.length pages - 1)%nat. lia. }
  destruct Hsplit as [fuel' ->].
  unfold get_todos. rewrite Hid.
  rewrite (get_todos_loop_skip self _ pages 1 [] w (S fuel') Hp).
  cbn [get_todos_loop app].
  unfold get_todos_page. rewrite fetch_outcome.
  destruct (Hs (requests_log
                  (log_requests (pages_trace self (todos_url self pid) 1 pages)
                     w))) as [s [Hr Hok]].
  rewrite Hr, Hok. unfold bind at 1, lift at 1. cbn [py_iter].
  unfold bind at 1. rewrite (get_todos_details_prefix self good _ Hd).
  cbn [get_todos_details]. unfold bind at 1, lift at 1. rewrite Hbad.
  now rewrite log_request_one, !log_requests_app.
Qed.

Lemma get_todos_details_shape (self : BasecampClient)
  (basic_todos : list json) :
  forall todos w,
    exists dreqs,
      snd (get_todos_details self basic_todos todos w) = log_requests dreqs w
      /\ Forall (detail_shaped self) dreqs.
Proof.
  induction basic_todos as [|basic_todo rest IH]; intros todos w;
    cbn [get_todos_details].
  - exists []. cbn. now rewrite log_requests_nil.
  - unfold bind at 1, lift at 1.
    destruct (getitem basic_todo "url") as [l|e].
    + rewrite fetch_outcome.
      set (req := session_request self l None).
      assert (Hreq : detail_shaped self req) by (exists l; reflexivity).
      destruct (remote (requests_log w) req) as [s b|].
      * destruct (ok_status s); [destruct b as [v|]|].
        -- destruct (IH (todos ++ [v])%list (log_request req w))
             as [dreqs [Hw Hsh]].
           exists (req :: dreqs). rewrite Hw, log_request_one, log_requests_app.
           split; [reflexivity | now constructor].
        -- exists [req]. split; [reflexivity | now constructor].
        -- exists [req]. split; [reflexivity | now constructor].
      * exists [req]. split; [reflexivity | now constructor].
    + exists []. cbn. now rewrite log_requests_nil.
Qed.

Lemma get_todos_page_shape (self : BasecampClient) (u : string) (page : Z)
  (todos : list json) (w : world) :
  exists dreqs,
    snd (get_todos_page self u page todos w)
    = log_requests (session_request self (JStr u) (Some page) :: dreqs) w
    /\ Forall (detail_shaped self) dreqs.
Proof.
  unfold get_todos_page. rewrite fetch_outcome.
  set (req := session_request self (JStr u) (Some page)).
  destruct (remote (requests_log w) req) as [s b|].
  - destruct (ok_status s); [destruct b as [v|]|].
    + unfold bind at 1, lift at 1.
      destruct (py_iter v) as [items|e].
      * unfold bind at 1.
        destruct (get_todos_details_shape self items todos (log_request req w))
          as [dreqs [Hw Hsh]].
        exists dreqs. split; [|exact Hsh].
        destruct (get_todos_details self items todos (log_request req w))
          as [[t|e] w1]; cbn [snd] in *; subst w1;
          now rewrite log_request_one, log_requests_app.
      * exists []. split; [reflexivity | constructor].
    + exists []. split; [reflexivity | constructor].
    + exists []. split; [reflexivity | constructor].
  - exists []. split; [reflexivity | constructor].
Qed.

Lemma filter_detail_shaped (self : BasecampClient) (dreqs : list request) :
  Forall (detail_shaped self) dreqs -> filter is_page_request dreqs = [].
Proof.
  induction 1 as [|q dreqs [l ->] _ IH]; [reflexivity|]. exact IH.
Qed.

Lemma detail_shaped_session (self : BasecampClient) (dreqs : list request) :
  Forall (detail_shaped self) dreqs -> Forall (session_shaped self) dreqs.
Proof.
  apply Forall_impl. intros q [l ->]. split; reflexivity.
Qed.

Lemma get_todos_loop_shape (self : BasecampClient) (u : string) :
  forall (fuel : nat) (page : Z) (todos : list json) (w : world)
         (r : result (list json)) (w' : world),
    get_todos_loop fuel self u page todos w = Some (r, w') ->
    exists reqs n,
      w' = log_requests reqs w
      /\ Forall (session_shaped self) reqs
      /\ filter is_page_request reqs
         = map (fun i => session_request self (JStr u)
                           (Some (page + Z.of_nat i)))
               (seq 0 (S n)).
Proof.
  induction fuel as [|fuel IH]; intros page todos w r w' H;
    cbn [get_todos_loop] in H; [discriminate|].
  destruct (get_todos_page_shape self u page todos w) as [dreqs [Hw1 Hsh]].
  set (req := session_request self (JStr u) (Some page)) in *.
  assert (Hone : exists reqs n,
             log_requests (req :: dreqs) w = log_requests reqs w
             /\ Forall (session_shaped self) reqs
             /\ filter is_page_request reqs
                = map (fun i => session_request self (JStr u)
                                  (Some (page + Z.of_nat i)))
                      (seq 0 (S n))).
  { exists (req :: dreqs), 0%nat. split; [reflexivity|]. split.
    - constructor; [split; reflexivity | now apply detail_shaped_session].
    - cbn [filter is_page_request req session_request req_page seq map].
      rewrite (filter_detail_shaped self dreqs Hsh).
      now replace (page + Z.of_nat 0) with page by (cbn; lia). }
  destruct (get_todos_page self u page todos w) as [[[basic todos']|e] w1];
    cbn [snd] in Hw1; subst w1.
  - destruct (negb (truthy basic)).
    + injection H as <- <-. exact Hone.
    + destruct (IH _ _ _ _ _ H) as (reqs2 & n2 & Hw2 & Hs2 & Hf2).
      exists ((req :: dreqs) ++ reqs2)%list, (S n2).
      split; [now rewrite Hw2, log_requests_app|]. split.
      * apply Forall_app. split; [|exact Hs2].
        constructor; [split; reflexivity | now apply detail_shaped_session].
      * rewrite filter_app.
        cbn [filter is_page_request req session_request req_page].
        rewrite (filter_detail_shaped self dreqs Hsh), Hf2. cbn [app].
        change (seq 0 (S (S n2))) with (0%nat :: seq 1 (S n2)).
        cbn [map]. replace (page + Z.of_nat 0) with page by (cbn; lia).
        unfold req. f_equal. rewrite <- seq_shift, map_map.
        apply map_ext. intros i. do 2 f_equal. lia.
  - injection H as <- <-. exact Hone.
Qed.

(** X15.  Every request that [get_todos] sends through a client made
    by [BasecampClient.__init__] carries that client's credentials and
    the User-Agent "GerevAI (<username>)", whatever the remote answers
    and however the call ends. *)
Theorem get_todos_requests_carry_the_session (u username password : json)
  (fuel : nat) (project : json) (w : world) (r : result (list json))
  (w' : world) :
  get_todos fuel (BasecampClient_init u username password) project w
  = Some (r, w') ->
  exists reqs,
    w' = log_requests reqs w
    /\ Forall (fun q => req_auth q = (username, password)
                        /\ req_user_agent q
                           = "GerevAI (" ++ py_str username ++ ")")
              reqs.
Proof.
  unfold get_todos. destruct (getitem project "id") as [pid|e]; intros H.
  - destruct (get_todos_loop_shape _ _ _ _ _ _ _ _ H)
      as (reqs & n & Hw & Hs & _).
    exists reqs. split; [exact Hw|]. exact Hs.
  - injection H as <- <-. exists []. split; [|constructor].
    now rewrite log_requests_nil.
Qed.

(** X16.  Whatever the remote answers, the page requests of a call of
    [get_todos] that returns are requests of the project's todos URL
    for the pages 1, 2, ..., n+1 in this order, without gap or
    repetition; there is at least one. *)
Theorem get_todos_pages_are_consecutive (self : BasecampClient)
  (fuel : nat) (project pid : json) (w : world) (r : result (list json))
  (w' : world) :
  getitem project "id" = Ok pid ->
  get_todos fuel self project w = Some (r, w') ->
  exists reqs n,
    w' = log_requests reqs w
    /\ filter is_page_request reqs
       = map (fun i => session_request self (JStr (todos_url self pid))
                         (Some (1 + Z.of_nat i)))
             (seq 0 (S n)).
Proof.
  intros Hid H. unfold get_todos in H. rewrite Hid in H.
  destruct (get_todos_loop_shape _ _ _ _ _ _ _ _ H)
    as (reqs & n & Hw & _ & Hf).
  exists reqs, n. split; assumption.
Qed.

(** *** One tree per task item *)

Lemma Forall2_mapM {A B} (f : A -> result B) (l : list A) (ys : list B) :
  Forall2 (fun x y => f x = Ok y) l ys -> mapM f l = Ok ys.
Proof.
  induction 1 as [|x y l ys Hxy _ IH]; cbn [mapM]; [reflexivity|].
  now rewrite Hxy, IH.
Qed.

Lemma comment_document_spec (self : BasecampDataSource)
  (project todo comment : json) (child : BasicDocument) :
  comment_document self project todo comment = Ok child
  <-> spec_comment_document self project todo comment child.
Proof.
  split.
  - intros H.
    destruct (comment_document_inv _ _ _ _ _ H)
      as (cid & creator & cname & raw & avatar & loc & app & upd
          & Hid & Hcr & Hn & Ha & Hraw & Hloc & Happ & Hupd & Hts & Hcnt
          & Hcid & Hds & Hty & Hti & Hau & Hav & Hlo & Hurl & Hch).
    subst. unfold spec_comment_document.
    split; [exact Hty|]. split; [exact Hch|]. split; [exact Hds|].
    split; [exact Hid|].
    split; [exists creator; rewrite Hau; auto|].
    split; [exists raw; auto|]. split; [exact Hloc|].
    split; [exists app; auto|]. exists upd. auto.
  - intros (Hty & Hch & Hds & Hid & [creator (Hcr & Hn & Hau & Ha)]
            & [raw (Hraw & Hcnt)] & Hloc & [app (Happ & Hurl)]
            & [upd (Hupd & Hts)]).
    unfold comment_document.
    rewrite Hid, Hcr. cbn [rbind]. rewrite Hn, Hraw. cbn [rbind].
    destruct child as [cid dsid ty ti cnt au av lo ur ts ch].
    cbn in *. subst.
    destruct (truthy raw).
    + destruct Hcnt as [s [-> ->]]. cbn [rbind call_html_to_text].
      rewrite Ha, Hloc, Happ, Hupd. cbn [rbind]. rewrite Hts. reflexivity.
    + subst cnt. cbn [rbind].
      rewrite Ha, Hloc, Happ, Hupd. cbn [rbind]. rewrite Hts. reflexivity.
Qed.

Lemma todo_document_spec (self : BasecampDataSource) (project todo : json)
  (doc : BasicDocument) :
  todo_document self project todo = Ok doc
  <-> spec_task_document self project todo doc.
Proof.
  split.
  - intros H.
    destruct (todo_document_inv _ _ _ _ H)
      as (comments & tid & creator & nm & raw & avatar & loc & app & upd
          & Hc & Hm & Hid & Hcr & Hn & Ha & Hraw & Hloc & Happ & Hupd & Hts
          & Hcnt & Htid & Hds & Hty & Hti & Hau & Hav & Hlo & Hurl).
    subst. unfold spec_task_document.
    split; [exact Hty|]. split; [exact Hds|]. split; [exact Hid|].
    split; [exists creator; rewrite Hau; auto|].
    split; [exists raw; auto|]. split; [exact Hloc|]. split; [exact Happ|].
    split; [exists upd; auto|]. exists comments. split; [exact Hc|].
    apply mapM_Forall2 in Hm.
    apply (Forall2_weaken _ _ _ _ Hm). intros c d.
    apply comment_document_spec.
  - intros (Hty & Hds & Hid & [creator (Hcr & Hn & Hau & Ha)]
            & [raw (Hraw & Hcnt)] & Hloc & Happ & [upd (Hupd & Hts)]
            & [comments (Hc & Hall)]).
    assert (Hm : mapM (comment_document self project todo) comments
                 = Ok (children doc)).
    { apply Forall2_mapM. apply (Forall2_weaken _ _ _ _ Hall).
      intros c d. apply comment_document_spec. }
    apply (todo_document_built self project todo comments (children doc)
             (id doc) creator (title doc) (author_image_url doc)
             (location doc) (url doc) upd raw (timestamp doc));
      try assumption.
    rewrite Hts. cbn [rbind].
    destruct doc as [tid dsid ty ti cnt au av lo ur ts ch].
    cbn in *. now subst.
Qed.

Lemma feed_todos_after_built (self : BasecampDataSource) (project : json)
  (before rest : list json) :
  forall docs w,
    mapM (todo_document self project) before = Ok docs ->
    feed_todos self project (before ++ rest) w
    = feed_todos self project rest (enqueue_all docs w).
Proof.
  induction before as [|todo before IH]; cbn [mapM feed_todos app];
    intros docs w H.
  - injection H as <-. now rewrite enqueue_all_nil.
  - destruct (todo_document self project todo) as [doc|e] eqn:Hd; [|discriminate].
    destruct (mapM (todo_document self project) before) as [ds|e] eqn:Hr;
      [|discriminate].
    injection H as <-.
    unfold bind at 1, lift at 1. unfold bind at 1, put_single.
    rewrite (IH ds _ eq_refl). now rewrite enqueue_all_app.
Qed.

Lemma feed_todos_builds_a_prefix (self : BasecampDataSource) (project : json)
  (rest : list json) :
  forall w,
    exists n more,
      snd (feed_todos self project rest w) = enqueue_all more w
      /\ mapM (todo_document self project) (firstn n rest) = Ok more
      /\ (fst (feed_todos self project rest w) = Ok tt ->
          firstn n rest = rest)
      /\ (forall e,
            fst (feed_todos self project rest w) = Raise e ->
            exists bad,
              nth_error rest n = Some bad
              /\ todo_document self project bad = Raise e).
Proof.
  induction rest as [|todo rest IH]; intros w; cbn [feed_todos].
  - exists 0%nat, []. cbn. rewrite enqueue_all_nil.
    split; [reflexivity|]. split; [reflexivity|].
    split; [reflexivity|]. discriminate.
  - unfold bind at 1, lift at 1.
    destruct (todo_document self project todo) as [doc|e] eqn:Hd.
    + unfold bind at 1, put_single.
      destruct (IH (enqueue_all [doc] w)) as (n & more & Hw & Hm & Hok & Hbad).
      exists (S n), (doc :: more). rewrite Hw, enqueue_all_app.
      cbn [firstn mapM app nth_error]. rewrite Hd, Hm.
      split; [reflexivity|]. split; [reflexivity|].
      split; [|exact Hbad].
      intros H. now rewrite (Hok H).
    + exists 0%nat, []. cbn. rewrite enqueue_all_nil.
      split; [reflexivity|]. split; [reflexivity|].
      split; [discriminate|].
      intros e' He'. injection He' as <-. eauto.
Qed.

(** C6 (amended).  For the task items that stand before the first
    task item that fails to build, the unit makes exactly one enqueue
    call each, in order: the call of a task item carries the DOCUMENT
    tree of that item as the raw records give it, the children being
    the COMMENT documents of the raw comments in source order, none
    with children of its own, and none at all for a task item without
    comments.  What is enqueued after them are the trees of the task
    items that follow, up to the first that fails to build: for that
    one and for those after it no call is made, and the unit ends with
    its error.  When every task item has its tree, the unit returns
    normally with one call per task item.  The source passes no children when it builds a
    comment; that the document then has none is the default of the
    [BasicDocument] constructor, which is modelled from the
    specification. *)
Theorem feed_project_issues_enqueues_one_tree_per_item (fuel : nat)
  (self : BasecampDataSource) (project pname : json) (w w1 : world)
  (before rest : list json) (docs : list BasicDocument) :
  getitem project "name" = Ok pname ->
  get_todos fuel (_client self) project w
  = Some (Ok (before ++ rest)%list, w1) ->
  Forall2 (spec_task_document self project) before docs ->
  exists r n more,
    _feed_project_issues fuel self project w
    = Some (r, enqueue_all (docs ++ more) w1)
    /\ index_queue (enqueue_all (docs ++ more) w1)
       = (index_queue w ++ docs ++ more)%list
    /\ List.length docs = List.length before
    /\ Forall2 (spec_task_document self project) (firstn n rest) more
    /\ (r = Ok tt -> firstn n rest = rest)
    /\ (forall e,
          r = Raise e ->
          exists bad,
            nth_error rest n = Some bad
            /\ todo_document self project bad = Raise e)
    /\ (rest = [] -> r = Ok tt /\ more = [])
    /\ Forall
         (fun doc =>
            type doc = DOCUMENT
            /\ Forall (fun child => type child = COMMENT
                                    /\ children child = [])
                      (children doc))
         docs
    /\ Forall2
         (fun todo doc => comments_of todo = Ok [] -> children doc = [])
         before docs.
Proof.
  intros Hname Hget Hspec.
  assert (Hm : mapM (todo_document self project) before = Ok docs).
  { apply Forall2_mapM. apply (Forall2_weaken _ _ _ _ Hspec).
    intros t d. apply todo_document_spec. }
  destruct (get_todos_only_requests _ _ _ _ _ _ Hget) as [Hq _].
  destruct (feed_todos_builds_a_prefix self project rest (enqueue_all docs w1))
    as (n & more & Hw & Hmore & Hok & Hbad).
  exists (fst (feed_todos self project rest (enqueue_all docs w1))), n, more.
  split; [|split; [|split; [|split; [|split; [|split; [|split; [|split]]]]]]].
  - unfold _feed_project_issues. rewrite Hname. cbn [rbind].
    assert (Hid : exists pid, getitem project "id" = Ok pid).
    { unfold get_todos in Hget.
      destruct (getitem project "id") as [pid|e0]; [eauto|].
      injection Hget as Hr _. discriminate. }
    destruct Hid as [pid ->]. cbn [rbind]. rewrite Hget.
    rewrite (feed_todos_after_built self project before rest docs w1 Hm).
    rewrite <- enqueue_all_app, <- Hw.
    now destruct (feed_todos self project rest (enqueue_all docs w1)).
  - cbn. now rewrite Hq.
  - exact (mapM_length _ _ _ Hm).
  - apply mapM_Forall2 in Hmore.
    apply (Forall2_weaken _ _ _ _ Hmore). intros t d. apply todo_document_spec.
  - exact Hok.
  - exact Hbad.
  - intros ->. cbn in *. split; [reflexivity|].
    destruct n; cbn in Hmore; now injection Hmore.
  - apply (Forall2_Forall_r _ _ _ _ Hspec).
    intros t d (Hty & _ & _ & _ & _ & _ & _ & _ & [cs [_ Hall]]).
    split; [exact Hty|].
    apply (Forall2_Forall_r _ _ _ _ Hall).
    intros c ch (Hcty & Hch & _). auto.
  - apply (Forall2_weaken _ _ _ _ Hspec).
    intros t d (_ & _ & _ & _ & _ & _ & _ & _ & [cs [Hcs Hall]]) Hnone.
    rewrite Hnone in Hcs. injection Hcs as <-. now inversion Hall.
Qed.

(** *** Timestamps *)

































End Pipeline.

(** ** The end-to-end scenario and concrete runs *)

Ltac solve_served :=
  cbn;
  repeat match goal with
         | |- _ /\ _ => split
         | |- True => exact I
         | |- _ <> _ => discriminate
         | |- exists l, _ = Ok l => eexists; reflexivity
         | |- Ok _ = Ok _ => reflexivity
         | |- serves _ _ _ =>
             let h := fresh "h" in
             intros h; exists 200; split; vm_compute; reflexivity
         | |- fails_with _ _ _ =>
             let h := fresh "h" in
             split; [reflexivity | intros h; eexists; vm_compute; reflexivity]
         end.

(** C9 (amended).  For the project and task item of the end-to-end
    scenario, with creator records that also hold an [avatar_url]
    (whatever its value) and a converter that maps "<p>Hi</p>" to "Hi"
    and "<b>ok</b>" to "ok", the unit makes exactly one enqueue call:
    a DOCUMENT with title "Bo", content "Hi" and the app_url as url,
    whose single child is a COMMENT with title "Al", content "ok" and
    url "https://x/10#comment_99". *)
Theorem scenario_enqueues_one_tree (conv : string -> string)
  (avatar comment_avatar : json) (fuel : nat) :
  conv "<p>Hi</p>" = "Hi" ->
  conv "<b>ok</b>" = "ok" ->
  (2 <= fuel)%nat ->
  exists w,
    _feed_project_issues conv
      (scenario_remote
         (scenario_todo (creator_of "Bo" avatar)
                        (creator_of "Al" comment_avatar)))
      fuel example_source example_project empty_world
    = Some (Ok tt, w)
    /\ index_queue w
       = [{| id := JNum 10; data_source_id := 7; type := DOCUMENT;
             title := JStr "Bo"; content := Some "Hi"; author := JStr "Bo";
             author_image_url := avatar; location := JStr "Acme";
             url := JStr "https://x/10";
             timestamp :=
               {| year := 2023; month := 1; day := 2; hour := 3; minute := 4;
                  second := 5; microsecond := 0; utcoffset := Some 0 |};
             children :=
               [{| id := JNum 99; data_source_id := 7; type := COMMENT;
                   title := JStr "Al"; content := Some "ok";
                   author := JStr "Al"; author_image_url := comment_avatar;
                   location := JStr "Acme";
                   url := JStr "https://x/10#comment_99";
                   timestamp :=
                     {| year := 2023; month := 1; day := 2; hour := 3;
                        minute := 5; second := 0; microsecond := 0;
                        utcoffset := Some 0 |};
                   children := [] |}] |}].
Proof.
  intros Hhi Hok Hfuel.
  destruct fuel as [|[|fuel]]; [lia | lia |].
  eexists. split.
  - vm_compute. rewrite Hhi, Hok. reflexivity.
  - reflexivity.
Qed.

Lemma scenario_enqueues_one_tree_witness :
  exists w,
    _feed_project_issues example_html_to_text
      (scenario_remote
         (scenario_todo (creator_of "Bo" JNull) (creator_of "Al" JNull)))
      2 example_source example_project empty_world
    = Some (Ok tt, w)
    /\ map title (index_queue w) = [JStr "Bo"]
    /\ map content (index_queue w) = [Some "Hi"].
Proof.
  destruct (scenario_enqueues_one_tree example_html_to_text JNull JNull 2
              eq_refl eq_refl (le_n 2)) as [w [Hrun Hq]].
  exists w. split; [exact Hrun|]. rewrite Hq. split; reflexivity.
Defined.

(** C9, the scenario as written: the creator records of the
    specification's scenario hold no [avatar_url], and the unit raises
    KeyError with nothing enqueued. *)
Lemma scenario_literal_raises_key_error :
  exists w,
    _feed_project_issues example_html_to_text
      (scenario_remote scenario_todo_literal)
      2 example_source example_project empty_world
    = Some (Raise (KeyError "avatar_url"), w)
    /\ index_queue w = [].
Proof. eexists. split; vm_compute; reflexivity. Qed.

(** C2 on the source [[a, c], [blank], []]: three page requests, one
    detail request per summary, the records in pagination order. *)
Lemma get_todos_paginates_witness :
  exists w,
    get_todos two_pages_remote 3 example_client example_project empty_world
    = Some (Ok [todo_a; todo_c; todo_blank], w)
    /\ map req_page (filter is_page_request (requests_log w))
       = [Some 1; Some 2; Some 3]
    /\ map req_url
         (filter (fun r => negb (is_page_request r)) (requests_log w))
       = [JStr "https://bc/t/10"; JStr "https://bc/t/12";
          JStr "https://bc/t/13"].
Proof.
  destruct (get_todos_paginates two_pages_remote example_client
              example_project (JNum 1) (map entries two_pages) 3 empty_world)
    as [Hrun [Hpages Hdetails]].
  - reflexivity.
  - solve_served.
  - solve_served.
  - cbn. lia.
  - eexists. split; [exact Hrun|]. split.
    + exact Hpages.
    + cbn [requests_log log_requests empty_world app]. rewrite Hdetails.
      reflexivity.
Defined.


(** C1 (amended) on three task items of which the second does not
    build: the first is enqueued, the unit raises. *)
Lemma feed_project_issues_stops_at_failing_item_witness :
  exists w1 docs,
    _feed_project_issues example_html_to_text three_todos_remote 2
      example_source example_project empty_world
    = Some (Raise ValueError, enqueue_all docs w1)
    /\ map id docs = [JNum 10].
Proof.
  eexists. eexists. split.
  - eapply proj1.
    eapply (feed_project_issues_stops_at_failing_item example_html_to_text
              three_todos_remote 2 example_source example_project
              (JStr "Acme") empty_world _ [todo_a] todo_b [todo_c] _
              ValueError).
    + reflexivity.
    + vm_compute. reflexivity.
    + vm_compute. reflexivity.
    + vm_compute. reflexivity.
  - reflexivity.
Defined.

(** C1 as stated fails: the third task item builds on its own, and
    follows a task item whose timestamp is malformed; the unit raises
    and the queue holds the first document only. *)
Lemma sibling_after_failing_item_not_enqueued :
  exists w doc_a doc_c,
    todo_document example_html_to_text example_source example_project todo_a
    = Ok doc_a
    /\ todo_document example_html_to_text example_source example_project
         todo_b
       = Raise ValueError
    /\ todo_document example_html_to_text example_source example_project
         todo_c
       = Ok doc_c
    /\ _feed_project_issues example_html_to_text three_todos_remote 2
         example_source example_project empty_world
       = Some (Raise ValueError, w)
    /\ index_queue w = [doc_a]
    /\ doc_c <> doc_a.
Proof.
  do 3 eexists.
  split; [vm_compute; reflexivity|].
  split; [vm_compute; reflexivity|].
  split; [vm_compute; reflexivity|].
  split; [vm_compute; reflexivity|].
  split; [vm_compute; reflexivity|].
  discriminate.
Qed.

(** C6 (amended) on two task items with one and three comments: two
    enqueue calls, each tree with the ids, contents and urls of its
    raw comments in source order; and on three task items of which
    the second does not build: one enqueue call, for the first. *)
Lemma feed_project_issues_enqueues_one_tree_per_item_witness :
  (exists w docs,
     _feed_project_issues example_html_to_text tree_todos_remote 2
       example_source example_project empty_world
     = Some (Ok tt, w)
     /\ index_queue w = docs
     /\ map id docs = [JNum 10; JNum 14]
     /\ map type docs = [DOCUMENT; DOCUMENT]
     /\ map (fun d => map id (children d)) docs
        = [[JNum 99]; [JNum 1; JNum 2; JNum 3]]
     /\ map (fun d => map type (children d)) docs
        = [[COMMENT]; [COMMENT; COMMENT; COMMENT]]
     /\ map (fun d => map content (children d)) docs
        = [[Some "ok"]; [Some "ok"; None; None]]
     /\ map (fun d => map url (children d)) docs
        = [[JStr "https://x/10#comment_99"];
           [JStr "https://x/14#comment_1"; JStr "https://x/14#comment_2";
            JStr "https://x/14#comment_3"]]
     /\ map (fun d => map children (children d)) docs
        = [[[]]; [[]; []; []]])
  /\ (exists w,
        _feed_project_issues example_html_to_text three_todos_remote 2
          example_source example_project empty_world
        = Some (Raise ValueError, w)
        /\ map id (index_queue w) = [JNum 10]
        /\ map children (index_queue w) = [[]]).
Proof.
  split.
  - destruct (todo_document example_html_to_text example_source
                example_project
                (scenario_todo (creator_of "Bo" JNull)
                               (creator_of "Al" JNull)))
      as [d1|e] eqn:H1; [|vm_compute in H1; discriminate H1].
    destruct (todo_document example_html_to_text example_source
                example_project todo_quiet_comments)
      as [d2|e] eqn:H2; [|vm_compute in H2; discriminate H2].
    destruct (get_todos tree_todos_remote 2 example_client example_project
                empty_world) as [[r0 w1]|] eqn:Hget;
      [|vm_compute in Hget; discriminate Hget].
    assert (Hr0 : r0 = Ok ([scenario_todo (creator_of "Bo" JNull)
                              (creator_of "Al" JNull);
                            todo_quiet_comments] ++ [])%list).
    { vm_compute in Hget. now injection Hget as <- _. }
    subst r0.
    destruct (feed_project_issues_enqueues_one_tree_per_item
                example_html_to_text tree_todos_remote 2 example_source
                example_project (JStr "Acme") empty_world w1
                [scenario_todo (creator_of "Bo" JNull)
                               (creator_of "Al" JNull);
                 todo_quiet_comments] [] [d1; d2] eq_refl Hget)
      as (r & n & more & Hrun & Hq & _ & _ & _ & _ & Hdone & _).
    + constructor; [now apply todo_document_spec|].
      constructor; [now apply todo_document_spec|]. constructor.
    + destruct (Hdone eq_refl) as [-> ->].
      exists (enqueue_all ([d1; d2] ++ []) w1), [d1; d2].
      split; [exact Hrun|]. split; [exact Hq|].
      vm_compute in H1. injection H1 as <-.
      vm_compute in H2. injection H2 as <-.
      repeat split.
  - destruct (todo_document example_html_to_text example_source
                example_project todo_a)
      as [da|e] eqn:Ha; [|vm_compute in Ha; discriminate Ha].
    destruct (get_todos three_todos_remote 2 example_client example_project
                empty_world) as [[r0 w1]|] eqn:Hget;
      [|vm_compute in Hget; discriminate Hget].
    assert (Hr0 : r0 = Ok ([todo_a] ++ [todo_b; todo_c])%list).
    { vm_compute in Hget. now injection Hget as <- _. }
    subst r0.
    destruct (feed_project_issues_enqueues_one_tree_per_item
                example_html_to_text three_todos_remote 2 example_source
                example_project (JStr "Acme") empty_world w1
                [todo_a] [todo_b; todo_c] [da] eq_refl Hget)
      as (r & n & more & Hrun & Hq & _ & Hmore & Hok & Hbad & _).
    + constructor; [now apply todo_document_spec|]. constructor.
    + destruct n as [|n].
      * cbn [firstn] in Hmore, Hok. inversion Hmore; subst more.
        destruct r as [[]|e].
        -- discriminate (Hok eq_refl).
        -- destruct (Hbad e eq_refl) as [bad [Hnth Hraise]].
           cbn [nth_error] in Hnth. injection Hnth as <-.
           vm_compute in Hraise. injection Hraise as <-.
           exists (enqueue_all ([da] ++ []) w1).
           split; [exact Hrun|]. rewrite Hq.
           vm_compute in Ha. injection Ha as <-.
           split; reflexivity.
      * cbn [firstn] in Hmore. inversion Hmore as [|t d ts ds Hspec]; subst.
        apply todo_document_spec in Hspec.
        vm_compute in Hspec. discriminate Hspec.
Defined.

(** C6 as stated fails: of three raw task items the second does not
    build; the third builds on its own, and no enqueue call is made
    for it: the only document on the queue is that of the first. *)
Lemma task_item_after_failing_item_gets_no_enqueue_call :
  exists w w1 doc_c,
    get_todos three_todos_remote 2 example_client example_project empty_world
    = Some (Ok [todo_a; todo_b; todo_c], w1)
    /\ todo_document example_html_to_text example_source example_project
         todo_c
       = Ok doc_c
    /\ id doc_c = JNum 12
    /\ _feed_project_issues example_html_to_text three_todos_remote 2
         example_source example_project empty_world
       = Some (Raise ValueError, w)
    /\ map id (index_queue w) = [JNum 10].
Proof.
  do 3 eexists.
  split; [vm_compute; reflexivity|].
  split; [vm_compute; reflexivity|].
  split; [reflexivity|].
  split; [vm_compute; reflexivity|].
  reflexivity.
Qed.

(** C3 (amended) on a task item with three comments, the second with
    empty and the third with null content. *)
Lemma content_of_built_documents_witness :
  exists doc raw,
    todo_document example_html_to_text example_source example_project
      todo_quiet_comments = Ok doc
    /\ getitem todo_quiet_comments "content" = Ok (JStr raw)
    /\ content doc = Some (example_html_to_text raw)
    /\ map content (children doc) = [Some "ok"; None; None].
Proof.
  destruct (todo_document example_html_to_text example_source example_project
              todo_quiet_comments) as [doc|e] eqn:Hd.
  - destruct (content_of_built_documents example_html_to_text example_source
                example_project todo_quiet_comments doc Hd)
      as [[raw [Hraw Hcontent]] _].
    exists doc, raw. split; [reflexivity|]. split; [exact Hraw|].
    split; [exact Hcontent|].
    vm_compute in Hd. injection Hd as <-. reflexivity.
  - vm_compute in Hd. discriminate Hd.
Defined.

(** C3 as stated fails for the parent: a task item with empty raw
    content gets a document whose content is the conversion of the
    empty text, not None. *)
Lemma parent_content_of_empty_text_is_not_none :
  exists doc,
    getitem todo_blank "content" = Ok (JStr "")
    /\ todo_document example_html_to_text example_source example_project
         todo_blank = Ok doc
    /\ content doc = Some ""
    /\ content doc <> None.
Proof.
  eexists. split; [reflexivity|]. split; [vm_compute; reflexivity|].
  split; [reflexivity | discriminate].
Qed.



(** C4 (amended) on credentials that the remote answers with 401. *)
Lemma validate_config_probe_witness :
  validate_config (status_remote 401) example_config empty_world
  = (Raise (InvalidDataSourceConfig (HTTPError 401)),
     log_request (projects_request example_client) empty_world).
Proof.
  exact (proj1 (validate_config_probe (status_remote 401) example_config
                  (JStr "https://bc") (JStr "ann") (JStr "pw") empty_world
                  eq_refl eq_refl eq_refl)).
Defined.

(** C4 as stated fails: a probe that gets no answer raises the error
    of the HTTP library, not InvalidDataSourceConfig. *)
Lemma unanswered_probe_is_not_translated :
  exists w,
    validate_config silent_remote example_config empty_world
    = (Raise RequestException, w)
    /\ forall cause, RequestException <> InvalidDataSourceConfig cause.
Proof. eexists. split; [vm_compute; reflexivity | discriminate]. Qed.

(** C10 on a configuration without a password. *)
Lemma validate_config_missing_key_witness :
  exists k,
    In k ["url"; "username"; "password"]
    /\ assoc k [("url", JStr "https://bc"); ("username", JStr "ann")] = None
    /\ validate_config (status_remote 200)
         (JObj [("url", JStr "https://bc"); ("username", JStr "ann")])
         empty_world
       = (Raise (KeyError k), empty_world).
Proof.
  apply (validate_config_missing_key (status_remote 200)
           [("url", JStr "https://bc"); ("username", JStr "ann")] empty_world).
  right. right. reflexivity.
Defined.

(** C7 on a remote that answers the project listing with 503. *)
Lemma feed_new_documents_fails_with_enumeration_witness :
  _feed_new_documents (status_remote 503) example_source empty_world
  = (Raise (HTTPError 503),
     log_request (projects_request example_client) empty_world)
  /\ index_queue (log_request (projects_request example_client) empty_world)
     = []
  /\ task_queue (log_request (projects_request example_client) empty_world)
     = [].
Proof.
  apply (feed_new_documents_fails_with_enumeration (status_remote 503)
           example_source empty_world (HTTPError 503)).
  split; reflexivity.
Defined.

(** ** Concrete runs for the further properties *)

(** X2 on a remote that answers the probe with an empty listing. *)
Lemma validated_config_builds_the_probed_client_witness :
  exists self,
    validate_config (json_remote (JArr [])) example_config empty_world
    = (Ok tt, log_request (projects_request example_client) empty_world)
    /\ BasecampDataSource_init example_config 7 = Ok self
    /\ _client self = example_client.
Proof.
  destruct (validated_config_builds_the_probed_client (json_remote (JArr []))
              example_config 7 empty_world
              (log_request (projects_request example_client) empty_world)
              eq_refl) as (self & Hinit & _ & _ & _).
  exists self. split; [reflexivity|]. split; [exact Hinit|].
  vm_compute in Hinit. now injection Hinit as <-.
Defined.

(** X5 on a listing of two projects. *)
Lemma feed_new_documents_schedules_each_project_witness :
  exists w,
    _feed_new_documents
      (json_remote
         (JArr [example_project;
                JObj [("id", JNum 2); ("name", JStr "Beta")]]))
      example_source empty_world
    = (Ok tt, w)
    /\ task_queue w
       = [feed_project_issues_task example_project;
          feed_project_issues_task
            (JObj [("id", JNum 2); ("name", JStr "Beta")])]
    /\ index_queue w = [].
Proof.
  eexists. split.
  - apply (feed_new_documents_schedules_each_project
             (json_remote
                (JArr [example_project;
                       JObj [("id", JNum 2); ("name", JStr "Beta")]]))
             example_source empty_world 200); reflexivity.
  - split; reflexivity.
Defined.

(** X6 on a listing that is an error object. *)
Lemma object_listing_schedules_its_keys_witness :
  exists w,
    _feed_new_documents (json_remote (JObj [("error", JStr "no")]))
      example_source empty_world
    = (Ok tt, w)
    /\ task_queue w = [feed_project_issues_task (JStr "error")]
    /\ _feed_project_issues example_html_to_text
         (json_remote (JObj [("error", JStr "no")])) 3 example_source
         (JStr "error") w
       = Some (Raise TypeError, w).
Proof.
  destruct (object_listing_schedules_its_keys example_html_to_text
              (json_remote (JObj [("error", JStr "no")])) example_source
              empty_world 200 [("error", JStr "no")] eq_refl eq_refl)
    as [Hrun Hunit].
  eexists. split; [exact Hrun|]. split; [reflexivity|]. apply Hunit.
Defined.

(** X7 on the source whose third detail request fails. *)
Lemma feed_project_issues_fetch_failure_witness :
  exists w1,
    _feed_project_issues example_html_to_text failing_detail_remote 2
      example_source example_project empty_world
    = Some (Raise (HTTPError 500), w1)
    /\ index_queue w1 = []
    /\ List.length (requests_log w1) = 5%nat.
Proof.
  eexists. split.
  - eapply proj1.
    eapply (feed_project_issues_fetch_failure example_html_to_text
              failing_detail_remote 2 example_source example_project
              (JStr "Acme") empty_world).
    + reflexivity.
    + vm_compute. reflexivity.
  - split; reflexivity.
Defined.

(** X8 on the three task items of which the second does not build. *)
Lemma feed_project_issues_builds_without_requests_witness :
  exists r w1 docs,
    get_todos three_todos_remote 2 example_client example_project empty_world
    = Some (Ok [todo_a; todo_b; todo_c], w1)
    /\ _feed_project_issues example_html_to_text three_todos_remote 2
         example_source example_project empty_world
       = Some (r, enqueue_all docs w1)
    /\ Forall (fun d => type d = DOCUMENT) docs
    /\ (List.length docs <= 3)%nat.
Proof.
  destruct (get_todos three_todos_remote 2 example_client example_project
              empty_world) as [[r0 w1]|] eqn:Hget;
    [|vm_compute in Hget; discriminate Hget].
  assert (Hr0 : r0 = Ok [todo_a; todo_b; todo_c]).
  { vm_compute in Hget. now injection Hget as <- _. }
  subst r0.
  destruct (feed_project_issues_builds_without_requests example_html_to_text
              three_todos_remote 2 example_source example_project
              (JStr "Acme") empty_world w1 [todo_a; todo_b; todo_c]
              eq_refl Hget)
    as (r & docs & Hrun & _ & _ & _ & Hty & Hlen & _).
  exists r, w1, docs. repeat split; assumption.
Defined.

(** X9 on a task item whose second comment has no [updated_at]. *)
Lemma todo_document_fails_with_its_comment_witness :
  todo_document example_html_to_text example_source example_project
    todo_broken_comment
  = Raise (KeyError "updated_at").
Proof.
  eapply (todo_document_fails_with_its_comment example_html_to_text
            example_source example_project todo_broken_comment
            [comment_of 1 (creator_of "Al" JNull) "<b>ok</b>"
               "2023-01-02T03:05:00.000000+00:00"]
            (JObj [("id", JNum 2); ("creator", creator_of "Al" JNull);
                   ("content", JStr "late")])
            [comment_of 3 (creator_of "Al" JNull) "<b>ok</b>"
               "2023-01-02T03:07:00.000000+00:00"]).
  - reflexivity.
  - vm_compute. reflexivity.
  - vm_compute. reflexivity.
Defined.

(** X10 on the task item of the scenario. *)
Lemma tree_fields_agree_witness :
  exists doc,
    todo_document example_html_to_text example_source example_project
      (scenario_todo (creator_of "Bo" JNull) (creator_of "Al" JNull))
    = Ok doc
    /\ title doc = author doc
    /\ Forall
         (fun child =>
            title child = author child
            /\ location child = location doc
            /\ data_source_id child = data_source_id doc
            /\ url child
               = JStr (py_str (url doc) ++ "#comment_" ++ py_str (id child)))
         (children doc).
Proof.
  destruct (todo_document example_html_to_text example_source example_project
              (scenario_todo (creator_of "Bo" JNull) (creator_of "Al" JNull)))
    as [doc|e] eqn:Hd; [|vm_compute in Hd; discriminate Hd].
  destruct (tree_fields_agree example_html_to_text example_source
              example_project _ doc Hd) as (Ht & _ & _ & _ & Hc).
  exists doc. repeat split; assumption.
Defined.

(** X11 on a comment that has an id and a creator only. *)
Lemma comment_without_content_key_witness :
  comment_document example_html_to_text example_source example_project todo_a
    (JObj [("id", JNum 5); ("creator", creator_of "Al" JNull)])
  = Raise (KeyError "content").
Proof.
  apply (comment_without_content_key example_html_to_text example_source
           example_project todo_a
           [("id", JNum 5); ("creator", creator_of "Al" JNull)]
           (JNum 5) (creator_of "Al" JNull) (JStr "Al"));
    reflexivity.
Defined.

(** X12 on a source every page of which lists one summary. *)
Lemma get_todos_never_returns_without_empty_page_witness :
  get_todos endless_remote 40 example_client example_project empty_world
  = None.
Proof.
  apply (get_todos_never_returns_without_empty_page endless_remote
           example_client example_project (JNum 1)
           (fun _ => [(summary_of "https://bc/t/10", todo_a)]) empty_world).
  - reflexivity.
  - intros k Hk. solve_served.
Defined.

(** X13 on a first page that is null, and on one that is an empty
    object. *)
Lemma get_todos_ends_on_falsy_page_witness :
  (exists w,
     get_todos (first_page_remote JNull) 1 example_client example_project
       empty_world
     = Some (Raise TypeError, w))
  /\ (exists w,
        get_todos (first_page_remote (JObj [])) 1 example_client
          example_project empty_world
        = Some (Ok [], w)).
Proof.
  split; eexists.
  - apply (get_todos_ends_on_falsy_page (first_page_remote JNull)
             example_client example_project (JNum 1) [] 1 empty_world JNull);
      solve_served; try reflexivity; lia.
  - apply (get_todos_ends_on_falsy_page (first_page_remote (JObj []))
             example_client example_project (JNum 1) [] 1 empty_world
             (JObj []));
      solve_served; try reflexivity; lia.
Defined.

(** X14 on a page whose second summary has no locator. *)
Lemma get_todos_summary_without_url_witness :
  exists w,
    get_todos missing_url_remote 1 example_client example_project empty_world
    = Some (Raise (KeyError "url"), w)
    /\ map (fun r => (req_url r, req_page r)) (requests_log w)
       = [(JStr example_todos_url, Some 1); (JStr "https://bc/t/10", None)].
Proof.
  eexists. split.
  - apply (get_todos_summary_without_url missing_url_remote example_client
             example_project (JNum 1) [] 1 empty_world
             (entries [("https://bc/t/10", todo_a)])
             (JObj [("id", JNum 11)]) [summary_of "https://bc/t/12"]
             (KeyError "url"));
      solve_served; try reflexivity; lia.
  - reflexivity.
Defined.

(** X15 and X16 on the source [[a, c], [blank], []]. *)
Lemma get_todos_requests_carry_the_session_witness :
  exists reqs,
    get_todos two_pages_remote 3 example_client example_project empty_world
    = Some (Ok [todo_a; todo_c; todo_blank], log_requests reqs empty_world)
    /\ List.length reqs = 6%nat
    /\ Forall (fun q => req_auth q = (JStr "ann", JStr "pw")
                        /\ req_user_agent q = "GerevAI (ann)") reqs.
Proof.
  destruct (get_todos two_pages_remote 3 example_client example_project
              empty_world) as [[r w']|] eqn:Hget;
    [|vm_compute in Hget; discriminate Hget].
  destruct (get_todos_requests_carry_the_session two_pages_remote
              (JStr "https://bc") (JStr "ann") (JStr "pw") 3 example_project
              empty_world r w' Hget) as [reqs [Hw Hall]].
  exists reqs. subst w'. pose proof Hget as E. vm_compute in E.
  inversion E; subst. split; [|split; [|exact Hall]].
  - vm_compute. reflexivity.
  - reflexivity.
Defined.

Lemma get_todos_pages_are_consecutive_witness :
  exists reqs,
    get_todos two_pages_remote 3 example_client example_project empty_world
    = Some (Ok [todo_a; todo_c; todo_blank], log_requests reqs empty_world)
    /\ map req_page (filter is_page_request reqs) = [Some 1; Some 2; Some 3].
Proof.
  destruct (get_todos two_pages_remote 3 example_client example_project
              empty_world) as [[r w']|] eqn:Hget;
    [|vm_compute in Hget; discriminate Hget].
  destruct (get_todos_pages_are_consecutive two_pages_remote example_client
              3 example_project (JNum 1) empty_world r w' eq_refl Hget)
    as (reqs & n & Hw & Hf).
  exists reqs. subst w'. pose proof Hget as E. vm_compute in E.
  inversion E; subst. clear. split.
  - vm_compute. reflexivity.
  - reflexivity.
Defined.
